(** * Retail analytics dashboard (analysisfootfall.py)

    A shallow embedding of the dashboard script: the table left by data
    preparation, the three sidebar filter stages, the key performance
    indicators, the insight list and the top-products series.

    Conventions of the embedding.
    - A pandas DataFrame is a list of column names together with a list of
      rows; a cell holding NaN / NaT / None is [None].
    - Numbers are exact rationals ([Qc]); rounding of binary floating point
      is outside the model.
    - A pandas or Python operation that raises is a [Raise] result; the
      script runs inside one [try] block, so a raise ends the run.
    - DataFrame objects live in a store; Python variables are names bound to
      store locations. *)

From Stdlib Require Import ZArith QArith Qcanon List Bool String Permutation Sorted Lia.
From stdpp Require Import base option list gmap strings numbers.
From stdpp Require pretty.
Import ListNotations.

(** ** Calendar values *)

(** [datetime.date]: compared as the tuple (year, month, day). *)
Record date := mkdate { year : Z; month : Z; day : Z }.

Definition date_compare (a b : date) : comparison :=
  match (year a ?= year b)%Z with
  | Eq => match (month a ?= month b)%Z with
          | Eq => (day a ?= day b)%Z
          | c => c
          end
  | c => c
  end.

Definition date_leb (a b : date) : bool :=
  match date_compare a b with Gt => false | _ => true end.

(** [pandas.Timestamp]: a calendar date and the nanoseconds elapsed since
    midnight of that date. *)
Record Timestamp := mkTimestamp { ts_date : date; ts_nanos : Z }.

Definition Timestamp_leb (a b : Timestamp) : bool :=
  match date_compare (ts_date a) (ts_date b) with
  | Lt => true
  | Eq => (ts_nanos a <=? ts_nanos b)%Z
  | Gt => false
  end.

Definition Timestamp_min (a b : Timestamp) : Timestamp :=
  if Timestamp_leb a b then a else b.

Definition Timestamp_max (a b : Timestamp) : Timestamp :=
  if Timestamp_leb a b then b else a.

(** ** Tables *)

(** A row after data preparation (lines 33-46): [OrderDate] went through
    [pd.to_datetime(errors='coerce')], [Sales] and [Profit] through
    [pd.to_numeric(errors='coerce')]; a value that failed to parse is
    missing.  Only the columns read by the code below are carried; a field
    of a column the table lacks is never read. *)
Record Row := mkRow {
  OrderDate : option Timestamp;
  Sales : option Qc;
  Profit : option Qc;
  Category : option string;
  Region : option string;
  Product : option string;
  OrderID : option string
}.

Record DataFrame := mkDataFrame {
  columns : list string;
  rows : list Row
}.

(** ['c' in df.columns] *)
Definition has_column (c : string) (df : DataFrame) : bool :=
  bool_decide (c ∈ columns df).

(** ** Errors *)

Inductive exn :=
| NameError (x : string)
| ValueError
| IndexingError
| IndexError
| ZeroDivisionError.

Inductive result (A : Type) :=
| Ok (a : A)
| Raise (e : exn).
Arguments Ok {A} a.
Arguments Raise {A} e.

(** ** pandas operations on series and frames *)

Module pd.

(** [Series.notna()] on one cell. *)
Definition notna {A} (c : option A) : bool :=
  match c with Some _ => true | None => false end.

(** [Series.dropna()] *)
Fixpoint dropna {A} (s : list (option A)) : list A :=
  match s with
  | [] => []
  | Some x :: t => x :: dropna t
  | None :: t => dropna t
  end.

(** [Series.unique()]: distinct values in order of first appearance. *)
Fixpoint unique {A} `{EqDecision A} (s : list A) : list A :=
  match s with
  | [] => []
  | x :: t => x :: List.filter (λ y, negb (bool_decide (y = x))) (unique t)
  end.

(** [Series.nunique()]: number of distinct non-missing values. *)
Definition nunique {A} `{EqDecision A} (s : list (option A)) : nat :=
  length (unique (dropna s)).

(** [Series.sum()]: missing values are skipped, the empty sum is 0.  The
    additions are exact here; pandas adds in the column's machine type
    (64-bit integers wrap, binary floating point rounds), so this is the
    library's sum as far as its additions are exact. *)
Fixpoint sum (s : list (option Qc)) : Qc :=
  match s with
  | [] => 0%Qc
  | Some x :: t => (x + sum t)%Qc
  | None :: t => sum t
  end.

(** [Series.isin(values)] on one cell; [values] comes from a multiselect
    whose options went through [dropna], so a missing cell never matches. *)
Definition isin (values : list string) (c : option string) : bool :=
  match c with
  | Some v => bool_decide (v ∈ values)
  | None => false
  end.

(** [Series.min()] / [Series.max()] of a datetime column: the extremum of
    the dates present, NaT when there is none. *)
Definition min (s : list (option Timestamp)) : option Timestamp :=
  match dropna s with
  | [] => None
  | t :: ts => Some (fold_left Timestamp_min ts t)
  end.

Definition max (s : list (option Timestamp)) : option Timestamp :=
  match dropna s with
  | [] => None
  | t :: ts => Some (fold_left Timestamp_max ts t)
  end.

(** [Timestamp.date()]; NaT has no date. *)
Definition Timestamp_date (t : option Timestamp) : result date :=
  match t with
  | Some t => Ok (ts_date t)
  | None => Raise ValueError
  end.

(** [Series.dt.date]: NaT stays missing. *)
Definition dt_date (c : option Timestamp) : option date :=
  match c with Some t => Some (ts_date t) | None => None end.

(** Elementwise [>=] and [<=] of an object series against a scalar date: a
    missing element compares false. *)
Definition ge (c : option date) (d : date) : bool :=
  match c with Some x => date_leb d x | None => false end.

Definition le (c : option date) (d : date) : bool :=
  match c with Some x => date_leb x d | None => false end.

(** Keeping the rows whose mask entry is true. *)
Fixpoint select (rs : list Row) (mask : list bool) : list Row :=
  match rs, mask with
  | r :: rs', b :: mask' => if b then r :: select rs' mask' else select rs' mask'
  | _, _ => []
  end.

(** [df[mask]] with a boolean series: a new frame with the same columns;
    a mask that does not line up with the frame raises. *)
Definition getitem (df : DataFrame) (mask : list bool) : result DataFrame :=
  if bool_decide (length mask = length (rows df))
  then Ok (mkDataFrame (columns df) (select (rows df) mask))
  else Raise IndexingError.

End pd.

(** ** The sidebar *)

(** What the user's sidebar hands back on one run of the script:
    [date_input] receives [min_date] and [max_date] (shown as the default
    value and as the bounds) and returns the tuple of picked dates;
    each multiselect receives its options (which are also its default) and
    returns the list of picked values. *)
Record Sidebar := mkSidebar {
  date_input : date → date → list date;
  multiselect_Category : list string → list string;
  multiselect_Region : list string → list string
}.

(** Widgets left as they come up: every default is returned. *)
Definition untouched : Sidebar :=
  {| date_input mn mx := [mn; mx];
     multiselect_Category opts := opts;
     multiselect_Region opts := opts |}.

(** A fixed triple of selections, whatever the defaults are. *)
Definition picks (dr : list date) (cs rs : list string) : Sidebar :=
  {| date_input _ _ := dr;
     multiselect_Category _ := cs;
     multiselect_Region _ := rs |}.

(** ** Store of DataFrame objects and the script's variables *)

Definition loc := positive.

Record State := mkState {
  heap : gmap loc DataFrame;
  env : gmap string loc;
  warnings : list string
}.

Definition M (A : Type) : Type := State → result (A * State).

#[global] Instance M_ret : MRet M := λ A a s, Ok (a, s).

#[global] Instance M_bind : MBind M := λ A B f m s,
  match m s with
  | Ok (a, s') => f a s'
  | Raise e => Raise e
  end.

Definition lift {A} (r : result A) : M A := λ s,
  match r with
  | Ok a => Ok (a, s)
  | Raise e => Raise e
  end.

(** Reading a variable that holds a DataFrame. *)
Definition read_var (x : string) : M DataFrame := λ s,
  match env s !! x with
  | Some l =>
      match heap s !! l with
      | Some d => Ok (d, s)
      | None => Raise (NameError x)
      end
  | None => Raise (NameError x)
  end.

(** A pandas call that returns a new DataFrame object. *)
Definition new_object (d : DataFrame) : M loc := λ s,
  let l := fresh (dom (heap s)) in
  Ok (l, mkState (<[l := d]> (heap s)) (env s) (warnings s)).

(** [x = <object>] *)
Definition assign (x : string) (l : loc) : M unit := λ s,
  Ok (tt, mkState (heap s) (<[x := l]> (env s)) (warnings s)).

(** [st.sidebar.warning(msg)] *)
Definition sidebar_warning (msg : string) : M unit := λ s,
  Ok (tt, mkState (heap s) (env s) (warnings s ++ [msg])).

(** ** Filters (lines 48-91) *)

(** Line 50: [df_filtered = df.copy()] *)
Definition copy_df : M unit :=
  df ← read_var "df";
  l ← new_object df;
  assign "df_filtered" l.

(** Lines 54-55 *)
Definition min_date (df : DataFrame) : result date :=
  pd.Timestamp_date (pd.min (map OrderDate (rows df))).

Definition max_date (df : DataFrame) : result date :=
  pd.Timestamp_date (pd.max (map OrderDate (rows df))).

(** Lines 53-67: the date filter. *)
Definition date_filter (ui : Sidebar) : M unit :=
  df ← read_var "df";
  if has_column "OrderDate" df && existsb pd.notna (map OrderDate (rows df)) then
    min_date ← lift (min_date df);
    max_date ← lift (max_date df);
    let date_range := date_input ui min_date max_date in
    match date_range with
    | [start_date; end_date] =>
        let mask :=
          map (λ r, pd.ge (pd.dt_date (OrderDate r)) start_date
                    && pd.le (pd.dt_date (OrderDate r)) end_date) (rows df) in
        df_filtered ← read_var "df_filtered";
        df_filtered' ← lift (pd.getitem df_filtered mask);
        l ← new_object df_filtered';
        assign "df_filtered" l
    | _ => sidebar_warning "Please select a valid date range."
    end
  else mret tt.

(** Lines 73-74 and 85-86: [df_filtered[c].dropna().unique()], the options
    and the default of a multiselect. *)
Definition options_of (key : Row → option string) (rs : list Row) : list string :=
  pd.unique (pd.dropna (map key rs)).

Definition Category_options (df_filtered : DataFrame) : list string :=
  options_of Category (rows df_filtered).

Definition Region_options (df_filtered : DataFrame) : list string :=
  options_of Region (rows df_filtered).

(** Lines 70-79: the category filter. *)
Definition category_filter (ui : Sidebar) : M unit :=
  df_filtered ← read_var "df_filtered";
  if has_column "Category" df_filtered then
    let categories := multiselect_Category ui (Category_options df_filtered) in
    match categories with
    | _ :: _ =>
        let mask := map (λ r, pd.isin categories (Category r)) (rows df_filtered) in
        df_filtered' ← lift (pd.getitem df_filtered mask);
        l ← new_object df_filtered';
        assign "df_filtered" l
    | [] => sidebar_warning "No category selected. Showing all."
    end
  else mret tt.

(** Lines 82-91: the region filter. *)
Definition region_filter (ui : Sidebar) : M unit :=
  df_filtered ← read_var "df_filtered";
  if has_column "Region" df_filtered then
    let regions := multiselect_Region ui (Region_options df_filtered) in
    match regions with
    | _ :: _ =>
        let mask := map (λ r, pd.isin regions (Region r)) (rows df_filtered) in
        df_filtered' ← lift (pd.getitem df_filtered mask);
        l ← new_object df_filtered';
        assign "df_filtered" l
    | [] => sidebar_warning "No region selected. Showing all."
    end
  else mret tt.

(** Lines 50-91 *)
Definition filters (ui : Sidebar) : M unit :=
  copy_df;; date_filter ui;; category_filter ui;; region_filter ui.

(** The DataFrame a variable holds in a state. *)
Definition value_of (x : string) (s : State) : option DataFrame :=
  l ← env s !! x; heap s !! l.

(** The value of [df_filtered] after running a piece of the script. *)
Definition df_filtered_after (p : M unit) (s : State) : result DataFrame :=
  match p s with
  | Ok (_, s') =>
      match value_of "df_filtered" s' with
      | Some d => Ok d
      | None => Raise (NameError "df_filtered")
      end
  | Raise e => Raise e
  end.

(** The state in which the filters start: [df] is the only table. *)
Definition loaded (df : DataFrame) : State :=
  mkState {[ 1%positive := df ]} {[ "df" := 1%positive ]} [].

(** ** More pandas operations: grouping, sorting, resampling *)

#[global] Instance result_ret : MRet result := λ A a, Ok a.

#[global] Instance result_bind : MBind result := λ A B f r,
  match r with
  | Ok a => f a
  | Raise e => Raise e
  end.

Module series.

(** Insertion sort by a boolean order. *)
Fixpoint insert {A} (leb : A → A → bool) (x : A) (l : list A) : list A :=
  match l with
  | [] => [x]
  | y :: t => if leb x y then x :: y :: t else y :: insert leb x t
  end.

Fixpoint sort {A} (leb : A → A → bool) (l : list A) : list A :=
  match l with
  | [] => []
  | x :: t => insert leb x (sort leb t)
  end.

(** [df.groupby(key)[val].sum()]: one entry per distinct non-missing key,
    keys in ascending order, each with the sum of its rows' values.  Labels
    are strings, ordered as strings; a label column that pandas reads as
    numbers is ordered as numbers. *)
Definition groupby_sum (key : Row → option string) (val : Row → option Qc)
    (rs : list Row) : list (string * Qc) :=
  map (λ k, (k, pd.sum (map val (List.filter (λ r, bool_decide (key r = Some k)) rs))))
      (sort String.leb (pd.unique (pd.dropna (map key rs)))).

(** The first entry holding the largest value, scanning from [best]. *)
Fixpoint argmax_from (best : string * Qc) (s : list (string * Qc)) : string * Qc :=
  match s with
  | [] => best
  | x :: t =>
      if bool_decide (snd best < snd x)%Qc then argmax_from x t else argmax_from best t
  end.

(** [Series.idxmax()] and [Series.max()]; both raise on an empty series. *)
Definition idxmax (s : list (string * Qc)) : result string :=
  match s with
  | [] => Raise ValueError
  | x :: t => Ok (fst (argmax_from x t))
  end.

Definition max (s : list (string * Qc)) : result Qc :=
  match s with
  | [] => Raise ValueError
  | x :: t => Ok (snd (argmax_from x t))
  end.

(** [Series.sort_values(ascending=False)]: by value, largest first.  pandas
    sorts with an unstable algorithm; the order among equal values is the
    one of this insertion sort. *)
Definition sort_values_desc (s : list (string * Qc)) : list (string * Qc) :=
  sort (λ a b, bool_decide (snd b ≤ snd a)%Qc) s.

(** [Series.head(n)] *)
Definition head {A} (n : nat) (s : list A) : list A := take n s.

(** [Series.iloc[i]], a negative [i] counting from the end. *)
Definition iloc (s : list Qc) (i : Z) : result Qc :=
  let j := if (i <? 0)%Z then (Z.of_nat (length s) + i)%Z else i in
  if (j <? 0)%Z then Raise IndexError
  else match s !! Z.to_nat j with
       | Some x => Ok x
       | None => Raise IndexError
       end.

(** The calendar month of a timestamp, counted in months. *)
Definition month_of (t : Timestamp) : Z :=
  (year (ts_date t) * 12 + (month (ts_date t) - 1))%Z.

(** [.set_index(date).resample('M')[val].sum()] on rows that all carry a
    date: one bucket per calendar month from the earliest to the latest
    month present, months without rows included (their sum is 0). *)
Definition resample_M_sum (s : list (Timestamp * option Qc)) : list Qc :=
  match map (λ p, month_of (fst p)) s with
  | [] => []
  | m :: ms =>
      let first := fold_left Z.min ms m in
      let last := fold_left Z.max ms m in
      map (λ b, pd.sum (map snd (List.filter (λ p, (month_of (fst p) =? b)%Z) s)))
          (seqZ first (last - first + 1))
  end.

End series.

(** ** Key performance indicators (lines 95-98) *)

Definition total_sales (df_filtered : DataFrame) : Qc :=
  if has_column "Sales" df_filtered then pd.sum (map Sales (rows df_filtered)) else 0%Qc.

Definition total_orders (df_filtered : DataFrame) : nat :=
  if has_column "OrderID" df_filtered
  then pd.nunique (map OrderID (rows df_filtered))
  else length (rows df_filtered).

(** An integer count as a rational. *)
Definition Qc_of_nat (n : nat) : Qc := Q2Qc (inject_Z (Z.of_nat n)).

(** [a / b] with an integer divisor.  Python raises on [b = 0] when [a] is
    a plain number (the [0] of an absent Sales column); a NumPy float would
    give inf or nan with a warning.  Both are the [Raise] of the model: a
    division by zero that does not happen cannot misbehave either way. *)
Definition truediv (a : Qc) (b : nat) : result Qc :=
  match b with
  | O => Raise ZeroDivisionError
  | S _ => Ok (a / Qc_of_nat b)%Qc
  end.

Definition avg_order_value (df_filtered : DataFrame) : result Qc :=
  if bool_decide (0 < total_orders df_filtered)
  then truediv (total_sales df_filtered) (total_orders df_filtered)
  else Ok 0%Qc.

Definition total_profit (df_filtered : DataFrame) : Qc :=
  if has_column "Profit" df_filtered then pd.sum (map Profit (rows df_filtered)) else 0%Qc.


(** ** Insights (lines 108-134) *)

(** The four texts that can be appended to [insights]:
    "Top region: **r** with $x sales", "Top category: **c**",
    "Sales are increasing recently", "Sales are declining recently". *)
Inductive Insight :=
| Top_region (top_region : string) (sales : Qc)
| Top_category (top_cat : string)
| Sales_increasing
| Sales_declining.

Definition region_sales (df_filtered : DataFrame) : list (string * Qc) :=
  series.groupby_sum Region Sales (rows df_filtered).

Definition cat_sales (df_filtered : DataFrame) : list (string * Qc) :=
  series.groupby_sum Category Sales (rows df_filtered).

(** Line 123: rows without a date dropped, the rest summed per month. *)
Definition sales_over_time (df_filtered : DataFrame) : list Qc :=
  series.resample_M_sum
    (omap (λ r, t ← OrderDate r; Some (t, Sales r)) (rows df_filtered)).

(** Lines 110-114 *)
Definition region_insight (df_filtered : DataFrame) : result (list Insight) :=
  if has_column "Region" df_filtered && has_column "Sales" df_filtered then
    match region_sales df_filtered with
    | [] => Ok []
    | _ :: _ =>
        top_region ← series.idxmax (region_sales df_filtered);
        top_sales ← series.max (region_sales df_filtered);
        Ok [Top_region top_region top_sales]
    end
  else Ok [].

(** Lines 116-120 *)
Definition category_insight (df_filtered : DataFrame) : result (list Insight) :=
  if has_column "Category" df_filtered && has_column "Sales" df_filtered then
    match cat_sales df_filtered with
    | [] => Ok []
    | _ :: _ =>
        top_cat ← series.idxmax (cat_sales df_filtered);
        Ok [Top_category top_cat]
    end
  else Ok [].

(** Lines 124-128, on the monthly sums. *)
Definition trend (sales_over_time : list Qc) : result (list Insight) :=
  if bool_decide (1 < length sales_over_time) then
    last ← series.iloc sales_over_time (-1);
    previous ← series.iloc sales_over_time (-2);
    if bool_decide (previous < last)%Qc
    then Ok [Sales_increasing]
    else Ok [Sales_declining]
  else Ok [].

(** Lines 122-128 *)
Definition trend_insight (df_filtered : DataFrame) : result (list Insight) :=
  if has_column "OrderDate" df_filtered && has_column "Sales" df_filtered
  then trend (sales_over_time df_filtered)
  else Ok [].

(** Lines 108-128: the list grows by [append], in this order. *)
Definition insights (df_filtered : DataFrame) : result (list Insight) :=
  r ← region_insight df_filtered;
  c ← category_insight df_filtered;
  t ← trend_insight df_filtered;
  Ok (([] ++ r) ++ c ++ t).

(** What the page shows. *)
Inductive Element :=
| st_markdown (number : nat) (insight : Insight)
| st_info (msg : string)
| st_warning (msg : string)
| st_plotly_bar (title : string) (bars : list (string * Qc)).

(** Lines 130-134 *)
Definition show_insights (insights : list Insight) : list Element :=
  match insights with
  | _ :: _ => imap (λ i insight, st_markdown (S i) insight) insights
  | [] => [st_info "No insights generated based on current filters."]
  end.

(** ** Top products (lines 153-167) *)

Definition top_products (df_filtered : DataFrame) : list (string * Qc) :=
  series.head 10
    (series.sort_values_desc (series.groupby_sum Product Sales (rows df_filtered))).

Definition top_products_section (df_filtered : DataFrame) : list Element :=
  if has_column "Product" df_filtered && has_column "Sales" df_filtered then
    match top_products df_filtered with
    | _ :: _ => [st_plotly_bar "Top 10 Products by Sales" (top_products df_filtered)]
    | [] => [st_warning "No product sales data to display."]
    end
  else [].

(** ** The row test of each stage *)

(** The tuple the date widget returns on a table ([[]] when the widget is
    not drawn). *)
Definition date_range (ui : Sidebar) (df : DataFrame) : list date :=
  match min_date df, max_date df with
  | Ok mn, Ok mx => date_input ui mn mx
  | _, _ => []
  end.

(** Row test of the date stage for a returned tuple: the mask of line 64
    when the stage is active, [true] when it is skipped. *)
Definition date_predicate (df : DataFrame) (date_range : list date) (r : Row) : bool :=
  if has_column "OrderDate" df && existsb pd.notna (map OrderDate (rows df)) then
    match date_range with
    | [start_date; end_date] =>
        pd.ge (pd.dt_date (OrderDate r)) start_date
        && pd.le (pd.dt_date (OrderDate r)) end_date
    | _ => true
    end
  else true.

(** Row test of the category stage for a returned list (line 77). *)
Definition category_predicate (df : DataFrame) (categories : list string) (r : Row) : bool :=
  if has_column "Category" df then
    match categories with
    | _ :: _ => pd.isin categories (Category r)
    | [] => true
    end
  else true.

(** Row test of the region stage for a returned list (line 89). *)
Definition region_predicate (df : DataFrame) (regions : list string) (r : Row) : bool :=
  if has_column "Region" df then
    match regions with
    | _ :: _ => pd.isin regions (Region r)
    | [] => true
    end
  else true.

(** A frame with the same columns and the rows passing a test. *)
Definition restrict (p : Row → bool) (df : DataFrame) : DataFrame :=
  mkDataFrame (columns df) (List.filter p (rows df)).

(** What a stage may change: objects are only added to the store, only the
    name [df_filtered] is rebound, and it is rebound to a new object. *)
Definition preserves (s s' : State) : Prop :=
  heap s ⊆ heap s'
  ∧ (∀ x, x ≠ "df_filtered" → env s' !! x = env s !! x)
  ∧ (∀ l, env s' !! "df_filtered" = Some l →
          env s !! "df_filtered" = Some l ∨ heap s !! l = None).

(** A piece of the script that, whenever it ends normally, has only added
    objects to the store and has rebound no name but [df_filtered]. *)
Definition keeps_store {A} (m : M A) : Prop :=
  ∀ s a s', m s = Ok (a, s') →
    heap s ⊆ heap s' ∧ ∀ x, x ≠ "df_filtered" → env s' !! x = env s !! x.

(** The selections the widgets return on a run that starts from [df]: each
    multiselect is offered the values left by the stages before it. *)
Definition categories (ui : Sidebar) (df : DataFrame) : list string :=
  multiselect_Category ui
    (Category_options (restrict (date_predicate df (date_range ui df)) df)).

Definition regions (ui : Sidebar) (df : DataFrame) : list string :=
  multiselect_Region ui
    (Region_options
       (restrict (category_predicate df (categories ui df))
          (restrict (date_predicate df (date_range ui df)) df))).

(** A row passes all the stages of a run. *)
Definition passes (ui : Sidebar) (df : DataFrame) (r : Row) : bool :=
  date_predicate df (date_range ui df) r
  && category_predicate df (categories ui df) r
  && region_predicate df (regions ui df) r.

(** ** Sample tables *)

Definition dollars (z : Z) : Qc := Q2Qc (inject_Z z).

Definition on_day (y m d : Z) : option Timestamp :=
  Some (mkTimestamp (mkdate y m d) 0).

Definition sample_columns : list string :=
  ["OrderID"; "OrderDate"; "Product"; "Category"; "Region"; "Sales"; "Profit"].

(** Four orders; one date did not parse, one category and one region are
    blank. *)
Definition orders : DataFrame :=
  mkDataFrame sample_columns
    [ mkRow (on_day 2023 1 5) (Some (dollars 100)) (Some (dollars 10))
        (Some "Toys") (Some "East") (Some "Car") (Some "A1");
      mkRow (on_day 2023 2 7) (Some (dollars 150)) (Some (dollars 20))
        None (Some "West") (Some "Doll") (Some "A2");
      mkRow None (Some (dollars 30)) None
        (Some "Food") None (Some "Car") (Some "A2");
      mkRow (on_day 2023 4 7) (Some (dollars 20)) (Some (dollars 5))
        (Some "Food") (Some "West") (Some "Bun") (Some "A3") ].

(** The state right after line 50 when [orders] was loaded. *)
Definition orders_copied : State :=
  mkState {[ 1%positive := orders; 2%positive := orders ]}
          {[ "df" := 1%positive; "df_filtered" := 2%positive ]} [].

(** A table whose Category and Region columns are blank in every row. *)
Definition unlabelled : DataFrame :=
  mkDataFrame sample_columns
    [ mkRow (on_day 2023 1 5) (Some (dollars 100)) None None None (Some "Car") (Some "A1");
      mkRow (on_day 2023 1 9) (Some (dollars 40)) None None None (Some "Bun") (Some "A2") ].

Definition unlabelled_copied : State :=
  mkState {[ 1%positive := unlabelled; 2%positive := unlabelled ]}
          {[ "df" := 1%positive; "df_filtered" := 2%positive ]} [].

(** Two months of sales: 60 and 40 in January, 100 in February. *)
Definition flat_months : DataFrame :=
  mkDataFrame ["OrderDate"; "Sales"]
    [ mkRow (on_day 2024 1 3) (Some (dollars 60)) None None None None None;
      mkRow (on_day 2024 2 10) (Some (dollars 100)) None None None None None;
      mkRow (on_day 2024 1 20) (Some (dollars 40)) None None None None None ].

(** Two months of sales: 100 in January, 150 in February. *)
Definition rising_months : DataFrame :=
  mkDataFrame ["OrderDate"; "Sales"]
    [ mkRow (on_day 2024 1 3) (Some (dollars 100)) None None None None None;
      mkRow (on_day 2024 2 10) (Some (dollars 150)) None None None None None ].

(** A view without any row. *)
Definition no_rows : DataFrame := mkDataFrame sample_columns [].

(** The summed sales of one product in a view. *)
Definition product_sales (df_filtered : DataFrame) (p : string) : Qc :=
  pd.sum (map Sales
            (List.filter (λ r, bool_decide (Product r = Some p)) (rows df_filtered))).

Definition sale (p : string) (x : Z) : Row :=
  mkRow None (Some (dollars x)) None None None (Some p) None.

(** Fifteen products with totals 150, 140, ..., 10; the rows come in no
    particular order, two products are sold in two rows, and one row has no
    product. *)
Definition fifteen_products : DataFrame :=
  mkDataFrame ["Product"; "Sales"]
    [ sale "P07" 90; sale "P01" 100; sale "P15" 10; sale "P03" 130;
      sale "P11" 50; sale "P02" 140; sale "P09" 70; sale "P01" 50;
      mkRow None (Some (dollars 500)) None None None None None;
      sale "P05" 110; sale "P13" 30; sale "P04" 120; sale "P08" 80;
      sale "P12" 20; sale "P06" 100; sale "P14" 20; sale "P10" 60;
      sale "P12" 20 ].

Definition fifteen_names : list string :=
  ["P01"; "P02"; "P03"; "P04"; "P05"; "P06"; "P07"; "P08"; "P09"; "P10";
   "P11"; "P12"; "P13"; "P14"; "P15"].

(** ** The other charts (lines 140-150 and 170-187) *)

#[global] Instance date_eq_dec : EqDecision date.
Proof. solve_decision. Defined.

(** What a chart section puts on the page. *)
Inductive Figure :=
| px_line (title : string) (points : list (date * Qc))
| px_pie (title : string) (slices : list (string * Qc))
| px_bar (title : string) (bars : list (string * Qc))
| chart_warning (msg : string).

(** Line 142: the rows that carry a date, as (date, sales) pairs. *)
Definition df_time (df_filtered : DataFrame) : list (Timestamp * option Qc) :=
  omap (λ r, t ← OrderDate r; Some (t, Sales r)) (rows df_filtered).

(** Line 144: [groupby(OrderDate.dt.to_period("D"))['Sales'].sum()], one
    entry per calendar day present, days ascending. *)
Definition daily_sales (df_filtered : DataFrame) : list (date * Qc) :=
  map (λ d, (d, pd.sum (map snd
                 (List.filter (λ p, bool_decide (ts_date (fst p) = d))
                    (df_time df_filtered)))))
      (series.sort date_leb
         (pd.unique (map (λ p, ts_date (fst p)) (df_time df_filtered)))).

(** Lines 140-150 *)
Definition sales_over_time_section (df_filtered : DataFrame) : list Figure :=
  if has_column "OrderDate" df_filtered && has_column "Sales" df_filtered then
    match df_time df_filtered with
    | _ :: _ => [px_line "Daily Sales Trend" (daily_sales df_filtered)]
    | [] => [chart_warning "No valid data to plot sales over time."]
    end
  else [].

(** Lines 170-177 *)
Definition sales_by_category_section (df_filtered : DataFrame) : list Figure :=
  if has_column "Category" df_filtered && has_column "Sales" df_filtered then
    match cat_sales df_filtered with
    | _ :: _ => [px_pie "Sales Distribution by Category" (cat_sales df_filtered)]
    | [] => [chart_warning "No category sales data."]
    end
  else [].

(** Lines 180-187 *)
Definition sales_by_region_section (df_filtered : DataFrame) : list Figure :=
  if has_column "Region" df_filtered && has_column "Sales" df_filtered then
    match region_sales df_filtered with
    | _ :: _ => [px_bar "Sales by Region" (region_sales df_filtered)]
    | [] => [chart_warning "No region sales data."]
    end
  else [].

(** ** The text report (lines 214-234) *)

(** The pieces the f-strings format: the clock reading of line 218, the
    [:,.2f] and [:,] renderings of the metrics, and the text of an insight.
    Their formatting is not modelled. *)
Record Formats := mkFormats {
  now : string;
  money : Qc → string;
  thousands : nat → string;
  insight_text : Insight → string
}.

(** The one-character string of Python's ["\n"]. *)
Definition nl : string := String (Ascii.ascii_of_nat 10) EmptyString.

(** Lines 228-231: the insight block. *)
Definition report_insights (f : Formats) (insights : list Insight) : list string :=
  match insights with
  | _ :: _ => imap (λ i ins, pretty.pretty (i + 1) +:+ ". " +:+ insight_text f ins) insights
  | [] => ["No insights available."]
  end.

(** Lines 214-232: the lines of the report. *)
Definition report (f : Formats) (total_sales : Qc) (total_orders : nat)
    (avg_order_value total_profit : Qc) (insights : list Insight) : list string :=
  [ "==================================";
    "    RETAIL ANALYTICS REPORT";
    "==================================";
    "Generated on: " +:+ now f;
    "";
    "----- KEY METRICS -----";
    "Total Sales      : $" +:+ money f total_sales;
    "Total Orders     : " +:+ thousands f total_orders;
    "Avg Order Value  : $" +:+ money f avg_order_value;
    "Total Profit     : $" +:+ money f total_profit;
    "";
    "----- INSIGHTS -----" ]
  ++ report_insights f insights
  ++ [nl +:+ "----- END OF REPORT -----"].

(** Line 234: ["\n".join(report)] *)
Definition txt_data (report : list string) : string := String.concat nl report.

(** Two orders with every cell filled. *)
Definition tidy_orders : DataFrame :=
  mkDataFrame sample_columns
    [ mkRow (on_day 2023 3 1) (Some (dollars 80)) (Some (dollars 8))
        (Some "Toys") (Some "East") (Some "Kite") (Some "B1");
      mkRow (on_day 2023 5 9) (Some (dollars 45)) (Some (dollars 4))
        (Some "Food") (Some "West") (Some "Jam") (Some "B2") ].

(** The state right after line 50 when [tidy_orders] was loaded. *)
Definition tidy_copied : State :=
  mkState {[ 1%positive := tidy_orders; 2%positive := tidy_orders ]}
          {[ "df" := 1%positive; "df_filtered" := 2%positive ]} [].


(** The warnings of lines 67, 79 and 91 on a run from [df], in order. *)
Definition date_warning (ui : Sidebar) (df : DataFrame) : list string :=
  if has_column "OrderDate" df && existsb pd.notna (map OrderDate (rows df)) then
    match date_range ui df with
    | [_; _] => []
    | _ => ["Please select a valid date range."]
    end
  else [].

Definition category_warning (df : DataFrame) (categories : list string) : list string :=
  if has_column "Category" df then
    match categories with
    | [] => ["No category selected. Showing all."]
    | _ :: _ => []
    end
  else [].

Definition region_warning (df : DataFrame) (regions : list string) : list string :=
  if has_column "Region" df then
    match regions with
    | [] => ["No region selected. Showing all."]
    | _ :: _ => []
    end
  else [].

(** * Properties *)

(** ** Lists and series *)

Lemma select_map (p : Row → bool) (rs : list Row) :
  pd.select rs (map p rs) = List.filter p rs.
Proof.
  induction rs as [|r rs IH]; simpl; [reflexivity|].
  rewrite IH. reflexivity.
Qed.

Lemma getitem_map (p : Row → bool) (df d : DataFrame) :
  rows d = rows df →
  pd.getitem d (map p (rows df)) = Ok (restrict p d).
Proof.
  intros E. unfold pd.getitem, restrict.
  rewrite length_map, E, bool_decide_eq_true_2 by reflexivity.
  rewrite <- E, select_map. reflexivity.
Qed.

Lemma filter_all (p : Row → bool) (rs : list Row) :
  (∀ r, In r rs → p r = true) → List.filter p rs = rs.
Proof.
  induction rs as [|r rs IH]; simpl; intros H; [reflexivity|].
  rewrite (H r) by auto. f_equal. apply IH. auto.
Qed.

Lemma restrict_all (p : Row → bool) (df : DataFrame) :
  (∀ r, In r (rows df) → p r = true) → restrict p df = df.
Proof.
  intros H. unfold restrict. rewrite filter_all by exact H.
  destruct df; reflexivity.
Qed.

Lemma filter_filter (p q : Row → bool) (rs : list Row) :
  List.filter q (List.filter p rs) = List.filter (λ r, p r && q r) rs.
Proof.
  induction rs as [|r rs IH]; simpl; [reflexivity|].
  destruct (p r); simpl; [destruct (q r)|]; rewrite IH; reflexivity.
Qed.

Lemma restrict_restrict (p q : Row → bool) (df : DataFrame) :
  restrict q (restrict p df) = restrict (λ r, p r && q r) df.
Proof. unfold restrict; simpl. rewrite filter_filter. reflexivity. Qed.

Lemma filter_ext_in (p q : Row → bool) (rs : list Row) :
  (∀ r, In r rs → p r = q r) → List.filter p rs = List.filter q rs.
Proof.
  induction rs as [|r rs IH]; simpl; intros H; [reflexivity|].
  rewrite (H r) by auto. rewrite IH by auto. reflexivity.
Qed.

(** ** Running the store operations *)

Lemma bind_Ok {A B} (m : M A) (f : A → M B) s a s' :
  m s = Ok (a, s') → (m ≫= f) s = f a s'.
Proof. intros E. unfold mbind, M_bind. rewrite E. reflexivity. Qed.

Lemma read_var_Ok x s d : value_of x s = Some d → read_var x s = Ok (d, s).
Proof.
  unfold value_of, read_var. intros E.
  destruct (env s !! x) as [l|]; simpl in E; [|discriminate].
  rewrite E. reflexivity.
Qed.

Lemma preserves_refl s : preserves s s.
Proof. split; [reflexivity|auto]. Qed.

Lemma lookup_None_weaken (h h' : gmap loc DataFrame) l :
  h ⊆ h' → h' !! l = None → h !! l = None.
Proof.
  intros Hsub Hn. destruct (h !! l) as [d|] eqn:E; [|reflexivity].
  rewrite (lookup_weaken _ _ _ _ E Hsub) in Hn. discriminate.
Qed.

Lemma preserves_trans s1 s2 s3 : preserves s1 s2 → preserves s2 s3 → preserves s1 s3.
Proof.
  intros (H1 & E1 & F1) (H2 & E2 & F2). split; [etransitivity; eassumption|]. split.
  - intros x Hx. rewrite E2, E1 by assumption. reflexivity.
  - intros l Hl. destruct (F2 l Hl) as [Hl2|Hl2]; [auto|].
    right. eapply lookup_None_weaken; eassumption.
Qed.

Lemma preserves_value_of s s' x d :
  preserves s s' → x ≠ "df_filtered" → value_of x s = Some d → value_of x s' = Some d.
Proof.
  intros (Hh & He & _) Hx. unfold value_of. rewrite (He x Hx).
  destruct (env s !! x) as [l|]; simpl; [|discriminate].
  intros E. eapply lookup_weaken; eassumption.
Qed.

(** Storing a new object under [df_filtered]. *)
Lemma rebind_df_filtered d s :
  ∃ s', (new_object d ≫= assign "df_filtered") s = Ok (tt, s')
        ∧ value_of "df_filtered" s' = Some d
        ∧ preserves s s'.
Proof.
  eexists. split; [reflexivity|]. simpl. split.
  - unfold value_of; simpl. rewrite lookup_insert_eq. simpl.
    apply lookup_insert_eq.
  - split; [|split]; simpl.
    + apply insert_subseteq, not_elem_of_dom, is_fresh.
    + intros x Hx. apply lookup_insert_ne. congruence.
    + intros l. rewrite lookup_insert_eq. intros [= <-].
      right. apply not_elem_of_dom, is_fresh.
Qed.

Lemma lift_getitem_Ok (p : Row → bool) (df d : DataFrame) s :
  rows d = rows df →
  lift (pd.getitem d (map p (rows df))) s = Ok (restrict p d, s).
Proof. intros E. unfold lift. rewrite (getitem_map p df d E). reflexivity. Qed.

Lemma same_store_view (s s' : State) (p : Row → bool) v :
  heap s' = heap s → env s' = env s →
  value_of "df_filtered" s = Some v →
  (∀ r, p r = true) →
  value_of "df_filtered" s' = Some (restrict p v) ∧ preserves s s'.
Proof.
  intros Hh He Hv Hp. split.
  - rewrite restrict_all by auto. unfold value_of in *. rewrite He, Hh. exact Hv.
  - split; [rewrite Hh; reflexivity|]. rewrite He. auto.
Qed.

(** ** The stages, one by one *)

Lemma category_filter_run ui s v :
  value_of "df_filtered" s = Some v →
  ∃ s', category_filter ui s = Ok (tt, s')
        ∧ value_of "df_filtered" s'
          = Some (restrict (category_predicate v
                              (multiselect_Category ui (Category_options v))) v)
        ∧ preserves s s'.
Proof.
  intros Hv. unfold category_filter.
  rewrite (bind_Ok _ _ _ _ _ (read_var_Ok _ _ _ Hv)).
  unfold category_predicate.
  destruct (has_column "Category" v).
  - destruct (multiselect_Category ui (Category_options v)) as [|c cs].
    + eexists. split; [reflexivity|].
      apply same_store_view; auto.
    + rewrite (bind_Ok _ _ _ _ _ (lift_getitem_Ok _ v v s eq_refl)).
      apply rebind_df_filtered.
  - eexists. split; [reflexivity|].
    apply same_store_view; auto.
Qed.

Lemma region_filter_run ui s v :
  value_of "df_filtered" s = Some v →
  ∃ s', region_filter ui s = Ok (tt, s')
        ∧ value_of "df_filtered" s'
          = Some (restrict (region_predicate v
                              (multiselect_Region ui (Region_options v))) v)
        ∧ preserves s s'.
Proof.
  intros Hv. unfold region_filter.
  rewrite (bind_Ok _ _ _ _ _ (read_var_Ok _ _ _ Hv)).
  unfold region_predicate.
  destruct (has_column "Region" v).
  - destruct (multiselect_Region ui (Region_options v)) as [|c cs].
    + eexists. split; [reflexivity|].
      apply same_store_view; auto.
    + rewrite (bind_Ok _ _ _ _ _ (lift_getitem_Ok _ v v s eq_refl)).
      apply rebind_df_filtered.
  - eexists. split; [reflexivity|].
    apply same_store_view; auto.
Qed.

Lemma existsb_notna_dropna {A} (s : list (option A)) :
  existsb pd.notna s = true → ∃ x xs, pd.dropna s = x :: xs.
Proof.
  induction s as [|[a|] s IH]; simpl; intros H; [discriminate|eauto|auto].
Qed.

Lemma min_date_Ok df :
  existsb pd.notna (map OrderDate (rows df)) = true → ∃ mn, min_date df = Ok mn.
Proof.
  intros H. destruct (existsb_notna_dropna _ H) as (x & xs & E).
  unfold min_date, pd.min. rewrite E. simpl. eauto.
Qed.

Lemma max_date_Ok df :
  existsb pd.notna (map OrderDate (rows df)) = true → ∃ mx, max_date df = Ok mx.
Proof.
  intros H. destruct (existsb_notna_dropna _ H) as (x & xs & E).
  unfold max_date, pd.max. rewrite E. simpl. eauto.
Qed.

Lemma lift_Ok {A} (r : result A) a s : r = Ok a → lift r s = Ok (a, s).
Proof. intros ->. reflexivity. Qed.

Lemma date_filter_run ui s df v :
  value_of "df" s = Some df →
  value_of "df_filtered" s = Some v →
  rows v = rows df →
  ∃ s', date_filter ui s = Ok (tt, s')
        ∧ value_of "df_filtered" s'
          = Some (restrict (date_predicate df (date_range ui df)) v)
        ∧ preserves s s'.
Proof.
  intros Hdf Hv Hrows. unfold date_filter.
  rewrite (bind_Ok _ _ _ _ _ (read_var_Ok _ _ _ Hdf)).
  unfold date_predicate, date_range.
  destruct (has_column "OrderDate" df); simpl;
    [destruct (existsb pd.notna (map OrderDate (rows df))) eqn:Hany|].
  - destruct (min_date_Ok df Hany) as [mn Hmn].
    destruct (max_date_Ok df Hany) as [mx Hmx].
    rewrite (bind_Ok _ _ _ _ _ (lift_Ok _ _ s Hmn)).
    rewrite (bind_Ok _ _ _ _ _ (lift_Ok _ _ s Hmx)).
    rewrite Hmn, Hmx.
    destruct (date_input ui mn mx) as [|a [|b [|c l]]].
    1,2,4: eexists; (split; [reflexivity|]); apply same_store_view; auto.
    rewrite (bind_Ok _ _ _ _ _ (read_var_Ok _ _ _ Hv)).
    rewrite (bind_Ok _ _ _ _ _ (lift_getitem_Ok _ df v s Hrows)).
    apply rebind_df_filtered.
  - eexists. split; [reflexivity|].
    apply same_store_view; auto.
  - eexists. split; [reflexivity|].
    apply same_store_view; auto.
Qed.

Lemma copy_df_run s df :
  value_of "df" s = Some df →
  ∃ s', copy_df s = Ok (tt, s')
        ∧ value_of "df_filtered" s' = Some df
        ∧ preserves s s'.
Proof.
  intros Hdf. unfold copy_df.
  rewrite (bind_Ok _ _ _ _ _ (read_var_Ok _ _ _ Hdf)).
  apply rebind_df_filtered.
Qed.

(** ** The three stages in sequence *)

Lemma category_predicate_columns df d cs r :
  columns d = columns df → category_predicate d cs r = category_predicate df cs r.
Proof. intros E. unfold category_predicate, has_column. rewrite E. reflexivity. Qed.

Lemma region_predicate_columns df d rs r :
  columns d = columns df → region_predicate d rs r = region_predicate df rs r.
Proof. intros E. unfold region_predicate, has_column. rewrite E. reflexivity. Qed.

Lemma restrict_ext (p q : Row → bool) df :
  (∀ r, p r = q r) → restrict p df = restrict q df.
Proof.
  intros H. unfold restrict. f_equal. apply filter_ext_in. auto.
Qed.

(** A run of the filters ends, [df_filtered] then holds the rows of [df]
    that pass, and nothing else of the store moved. *)
Lemma filters_run ui s df :
  value_of "df" s = Some df →
  ∃ s', filters ui s = Ok (tt, s')
        ∧ value_of "df_filtered" s' = Some (restrict (passes ui df) df)
        ∧ preserves s s'
        ∧ ∀ l, env s' !! "df_filtered" = Some l → heap s !! l = None.
Proof.
  intros Hdf. unfold filters.
  destruct (copy_df_run s df Hdf) as (s0 & R0 & V0 & P0).
  assert (Hdf0 : value_of "df" s0 = Some df)
    by (eapply preserves_value_of; [exact P0|discriminate|exact Hdf]).
  destruct (date_filter_run ui s0 df df Hdf0 V0 eq_refl) as (s1 & R1 & V1 & P1).
  destruct (category_filter_run ui s1 _ V1) as (s2 & R2 & V2 & P2).
  fold (categories ui df) in V2.
  rewrite (restrict_ext _ (category_predicate df (categories ui df))) in V2
    by (intros r; apply category_predicate_columns; reflexivity).
  destruct (region_filter_run ui s2 _ V2) as (s3 & R3 & V3 & P3).
  fold (regions ui df) in V3.
  rewrite (restrict_ext _ (region_predicate df (regions ui df))) in V3
    by (intros r; apply region_predicate_columns; reflexivity).
  exists s3.
  rewrite (bind_Ok _ _ _ _ _ R0), (bind_Ok _ _ _ _ _ R1), (bind_Ok _ _ _ _ _ R2).
  split; [exact R3|]. split; [|split].
  - rewrite V3, !restrict_restrict. f_equal. apply restrict_ext.
    intros r. unfold passes. apply andb_assoc.
  - eauto using preserves_trans.
  - intros l Hl.
    assert (P13 : preserves s0 s3) by eauto using preserves_trans.
    destruct P0 as (H0 & _ & F0).
    destruct P13 as (_ & _ & F13).
    destruct (F13 l Hl) as [Hl0|Hl0].
    + destruct (F0 l Hl0) as [Hl'|Hl']; [|exact Hl'].
      (* the binding made by the copy is to a fresh object *)
      revert R0 Hl0. unfold copy_df.
      rewrite (bind_Ok _ _ _ _ _ (read_var_Ok _ _ _ Hdf)).
      intros [= <-]. simpl. rewrite lookup_insert_eq. intros [= <-].
      apply not_elem_of_dom, is_fresh.
    + eapply lookup_None_weaken; eassumption.
Qed.

Lemma df_filtered_after_filters ui s df :
  value_of "df" s = Some df →
  df_filtered_after (filters ui) s = Ok (restrict (passes ui df) df).
Proof.
  intros Hdf. destruct (filters_run ui s df Hdf) as (s' & R & V & _).
  unfold df_filtered_after. rewrite R, V. reflexivity.
Qed.

Lemma date_predicate_picks dr cs rs df r :
  date_predicate df (date_range (picks dr cs rs) df) r = date_predicate df dr r.
Proof.
  unfold date_predicate, date_range.
  destruct (has_column "OrderDate" df); simpl; [|reflexivity].
  destruct (existsb pd.notna (map OrderDate (rows df))) eqn:Hany; [|reflexivity].
  destruct (min_date_Ok df Hany) as [mn ->].
  destruct (max_date_Ok df Hany) as [mx ->].
  reflexivity.
Qed.

Lemma passes_picks dr cs rs df r :
  passes (picks dr cs rs) df r
  = date_predicate df dr r && category_predicate df cs r && region_predicate df rs r.
Proof. unfold passes. rewrite date_predicate_picks. reflexivity. Qed.

Lemma forallb_Permutation {A} (f : A → bool) (l l' : list A) :
  Permutation l l' → forallb f l = forallb f l'.
Proof.
  induction 1 as [|x l l' _ IH|x y l|l l' l'' _ IH1 _ IH2]; simpl.
  - reflexivity.
  - rewrite IH. reflexivity.
  - destruct (f x), (f y); reflexivity.
  - congruence.
Qed.

(** ** No stage writes to an existing object *)

Lemma keeps_bind {A B} (m : M A) (f : A → M B) :
  keeps_store m → (∀ a, keeps_store (f a)) → keeps_store (m ≫= f).
Proof.
  intros Hm Hf s b s'. unfold mbind, M_bind.
  destruct (m s) as [[a s1]|e] eqn:E; [|discriminate].
  intros R. destruct (Hm _ _ _ E) as [H1 E1]. destruct (Hf a _ _ _ R) as [H2 E2].
  split; [etransitivity; eassumption|].
  intros x Hx. rewrite E2, E1 by assumption. reflexivity.
Qed.

Lemma keeps_ret {A} (a : A) : keeps_store (mret a).
Proof. intros s a' s' [= <- <-]. split; [reflexivity|auto]. Qed.

Lemma keeps_read_var x : keeps_store (read_var x).
Proof.
  intros s d s'. unfold read_var.
  destruct (env s !! x) as [l|]; [|discriminate].
  destruct (heap s !! l); [|discriminate].
  intros [= <- <-]. split; [reflexivity|auto].
Qed.

Lemma keeps_lift {A} (r : result A) : keeps_store (lift r).
Proof.
  intros s a s'. unfold lift. destruct r; [|discriminate].
  intros [= <- <-]. split; [reflexivity|auto].
Qed.

Lemma keeps_new_object d : keeps_store (new_object d).
Proof.
  intros s l s' [= <- <-]. simpl. split; [|auto].
  apply insert_subseteq, not_elem_of_dom, is_fresh.
Qed.

Lemma keeps_assign l : keeps_store (assign "df_filtered" l).
Proof.
  intros s [] s' [= <-]. simpl. split; [reflexivity|].
  intros x Hx. apply lookup_insert_ne. congruence.
Qed.

Lemma keeps_sidebar_warning msg : keeps_store (sidebar_warning msg).
Proof. intros s [] s' [= <-]. simpl. split; [reflexivity|auto]. Qed.

Create HintDb keeps.
#[local] Hint Resolve keeps_ret keeps_read_var keeps_lift keeps_new_object
  keeps_assign keeps_sidebar_warning : keeps.

Lemma keeps_copy_df : keeps_store copy_df.
Proof. unfold copy_df. repeat (apply keeps_bind; [|intros ?]); auto with keeps. Qed.

Lemma keeps_date_filter ui : keeps_store (date_filter ui).
Proof.
  unfold date_filter. apply keeps_bind; [auto with keeps|]. intros df.
  destruct (_ && _); [|auto with keeps].
  apply keeps_bind; [auto with keeps|]. intros mn.
  apply keeps_bind; [auto with keeps|]. intros mx.
  destruct (date_input ui mn mx) as [|a [|b [|c l]]]; auto with keeps.
  repeat (apply keeps_bind; [|intros ?]); auto with keeps.
Qed.

Lemma keeps_category_filter ui : keeps_store (category_filter ui).
Proof.
  unfold category_filter. apply keeps_bind; [auto with keeps|]. intros v.
  destruct (has_column "Category" v); [|auto with keeps].
  destruct (multiselect_Category ui (Category_options v)); [auto with keeps|].
  repeat (apply keeps_bind; [|intros ?]); auto with keeps.
Qed.

Lemma keeps_region_filter ui : keeps_store (region_filter ui).
Proof.
  unfold region_filter. apply keeps_bind; [auto with keeps|]. intros v.
  destruct (has_column "Region" v); [|auto with keeps].
  destruct (multiselect_Region ui (Region_options v)); [auto with keeps|].
  repeat (apply keeps_bind; [|intros ?]); auto with keeps.
Qed.

(** ** Filters: main results *)



(** C3. For a fixed triple of selections the three stages in sequence give
    the table filtered once by the conjunction of the three stage
    predicates, the conjuncts taken in any order. *)
Theorem stages_in_sequence_are_a_conjunction
    (dr : list date) (cs rs : list string) (s : State) (df : DataFrame)
    (ps : list (Row → bool)) :
  value_of "df" s = Some df →
  Permutation ps [date_predicate df dr; category_predicate df cs; region_predicate df rs] →
  df_filtered_after (filters (picks dr cs rs)) s
  = Ok (restrict (λ r, forallb (λ p, p r) ps) df).
Proof.
  intros Hdf Hps. rewrite (df_filtered_after_filters _ _ _ Hdf).
  f_equal. apply restrict_ext. intros r.
  rewrite (forallb_Permutation _ _ _ Hps), passes_picks. simpl.
  rewrite andb_true_r, andb_assoc. reflexivity.
Qed.

Lemma stages_in_sequence_are_a_conjunction_witness :
  df_filtered_after
    (filters (picks [mkdate 2023 1 1; mkdate 2023 3 31] ["Toys"] [])) (loaded orders)
  = Ok (restrict
          (λ r, forallb (λ p, p r)
                  [category_predicate orders ["Toys"];
                   date_predicate orders [mkdate 2023 1 1; mkdate 2023 3 31];
                   region_predicate orders []])
          orders).
Proof.
  apply stages_in_sequence_are_a_conjunction.
  - reflexivity.
  - apply perm_swap.
Defined.

(** C8. A run of the filters from a loaded table ends normally and leaves
    the table as it was: [df] names the same object, that object and every
    other object of the store hold what they held, and [df_filtered] names
    another object.  Stage by stage: from any state, a stage that ends
    leaves every object of the store and the binding of [df] as they were. *)
Theorem filters_leave_df_unchanged (ui : Sidebar) (s : State) (l : loc) (df : DataFrame) :
  env s !! "df" = Some l →
  heap s !! l = Some df →
  (∃ s', filters ui s = Ok (tt, s')
         ∧ env s' !! "df" = Some l
         ∧ heap s' !! l = Some df
         ∧ heap s ⊆ heap s'
         ∧ ∃ l' v, env s' !! "df_filtered" = Some l' ∧ heap s' !! l' = Some v ∧ l' ≠ l)
  ∧ (∀ stage s0 s1,
       In stage [copy_df; date_filter ui; category_filter ui; region_filter ui] →
       stage s0 = Ok (tt, s1) →
       env s1 !! "df" = env s0 !! "df"
       ∧ ∀ l0 d, heap s0 !! l0 = Some d → heap s1 !! l0 = Some d).
Proof.
  intros He Hh. split; cycle 1.
  { intros stage s0 s1 Hin R.
    assert (K : keeps_store stage).
    { destruct Hin as [<-|[<-|[<-|[<-|[]]]]];
        auto using keeps_copy_df, keeps_date_filter, keeps_category_filter,
          keeps_region_filter. }
    destruct (K _ _ _ R) as [Hsub Henv].
    split; [apply Henv; discriminate|].
    intros l0 d Hl0. eapply lookup_weaken; eassumption. }
  assert (Hdf : value_of "df" s = Some df)
    by (unfold value_of; rewrite He; exact Hh).
  destruct (filters_run ui s df Hdf) as (s' & R & V & (Hsub & Henv & _) & Hnew).
  exists s'. split; [exact R|].
  split; [rewrite Henv by discriminate; exact He|].
  split; [eapply lookup_weaken; eassumption|].
  split; [exact Hsub|].
  unfold value_of in V.
  destruct (env s' !! "df_filtered") as [l'|] eqn:El'; simpl in V; [|discriminate].
  exists l', (restrict (passes ui df) df).
  split; [reflexivity|]. split; [exact V|].
  intros ->. rewrite (Hnew l eq_refl) in Hh. discriminate.
Qed.

Lemma filters_leave_df_unchanged_witness :
  ∃ s', filters untouched (loaded orders) = Ok (tt, s')
        ∧ env s' !! "df" = Some 1%positive
        ∧ heap s' !! 1%positive = Some orders
        ∧ heap (loaded orders) ⊆ heap s'
        ∧ ∃ l' v, env s' !! "df_filtered" = Some l' ∧ heap s' !! l' = Some v
                  ∧ l' ≠ 1%positive.
Proof.
  apply (filters_leave_df_unchanged untouched (loaded orders) 1%positive orders eq_refl eq_refl).
Defined.

(** ** Options of a multiselect *)

Lemma In_unique (x : string) (l : list string) : In x (pd.unique l) ↔ In x l.
Proof.
  induction l as [|a l IH]; simpl; [tauto|].
  rewrite filter_In, IH, negb_true_iff, bool_decide_eq_false.
  destruct (decide (x = a)) as [->|Hne]; [tauto|].
  split; [tauto|]. intros [->|H]; [congruence|tauto].
Qed.

Lemma In_dropna {A} (x : A) (l : list (option A)) : In x (pd.dropna l) ↔ In (Some x) l.
Proof.
  induction l as [|[a|] l IH]; simpl; [tauto| |].
  - rewrite IH. split; (intros [E|H]; [left; congruence|tauto]).
  - rewrite IH. split; [tauto|]. intros [E|H]; [discriminate|tauto].
Qed.

Section Options.
Variable key : Row → option string.

Lemma In_options x rs : In x (options_of key rs) ↔ ∃ r, In r rs ∧ key r = Some x.
Proof.
  unfold options_of. rewrite In_unique, In_dropna, in_map_iff.
  split; intros (r & H1 & H2); eauto.
Qed.

Lemma isin_options rs r :
  In r rs → pd.isin (options_of key rs) (key r) = pd.notna (key r).
Proof.
  intros Hr. unfold pd.isin, pd.notna.
  destruct (key r) as [x|] eqn:E; [|reflexivity].
  apply bool_decide_eq_true_2, list_elem_of_In, In_options. eauto.
Qed.

Lemma options_nil rs : options_of key rs = [] ↔ ∀ r, In r rs → key r = None.
Proof.
  split.
  - intros E r Hr. destruct (key r) as [x|] eqn:Ex; [|reflexivity].
    assert (H : In x (options_of key rs)) by (apply In_options; eauto).
    rewrite E in H. destruct H.
  - intros H. destruct (options_of key rs) as [|x l] eqn:E; [reflexivity|].
    assert (Hx : In x (options_of key rs)) by (rewrite E; left; reflexivity).
    apply In_options in Hx. destruct Hx as (r & Hr & Hk).
    rewrite (H r Hr) in Hk. discriminate.
Qed.

End Options.

Lemma filter_fixpoint (p : Row → bool) (rs : list Row) :
  List.filter p rs = rs → ∀ r, In r rs → p r = true.
Proof. intros E r Hr. rewrite <- E in Hr. apply filter_In in Hr. tauto. Qed.

Lemma restrict_fixpoint (p : Row → bool) (df : DataFrame) :
  restrict p df = df → ∀ r, In r (rows df) → p r = true.
Proof.
  intros E. apply filter_fixpoint. change (rows (restrict p df) = rows df).
  rewrite E. reflexivity.
Qed.

Lemma df_filtered_after_category_filter ui s v :
  value_of "df_filtered" s = Some v →
  df_filtered_after (category_filter ui) s
  = Ok (restrict (category_predicate v (multiselect_Category ui (Category_options v))) v).
Proof.
  intros Hv. destruct (category_filter_run ui s v Hv) as (s' & R & V & _).
  unfold df_filtered_after. rewrite R, V. reflexivity.
Qed.

Lemma df_filtered_after_region_filter ui s v :
  value_of "df_filtered" s = Some v →
  df_filtered_after (region_filter ui) s
  = Ok (restrict (region_predicate v (multiselect_Region ui (Region_options v))) v).
Proof.
  intros Hv. destruct (region_filter_run ui s v Hv) as (s' & R & V & _).
  unfold df_filtered_after. rewrite R, V. reflexivity.
Qed.

(** With every option selected a stage whose column is present keeps the
    rows holding a value, unless no row holds one: then it keeps all. *)
Lemma category_predicate_all_options v r :
  has_column "Category" v = true → In r (rows v) →
  category_predicate v (Category_options v) r
  = match Category_options v with [] => true | _ => pd.notna (Category r) end.
Proof.
  intros Hc Hr. unfold category_predicate. rewrite Hc.
  destruct (Category_options v) as [|c cs] eqn:E; [reflexivity|].
  rewrite <- E. apply (isin_options Category), Hr.
Qed.

Lemma region_predicate_all_options v r :
  has_column "Region" v = true → In r (rows v) →
  region_predicate v (Region_options v) r
  = match Region_options v with [] => true | _ => pd.notna (Region r) end.
Proof.
  intros Hc Hr. unfold region_predicate. rewrite Hc.
  destruct (Region_options v) as [|c cs] eqn:E; [reflexivity|].
  rewrite <- E. apply (isin_options Region), Hr.
Qed.

Lemma restrict_notna_shorter {A} (key : Row → option A) v :
  (∃ r, In r (rows v) ∧ key r = None) →
  length (rows (restrict (λ r, pd.notna (key r)) v)) < length (rows v).
Proof.
  intros (r & Hr & Hk). simpl.
  induction (rows v) as [|a rs IH]; simpl in *; [destruct Hr|].
  pose proof (filter_length_le (λ r, pd.notna (key r)) rs) as Hle.
  destruct Hr as [->|Hr].
  - rewrite Hk. simpl. lia.
  - specialize (IH Hr). destruct (pd.notna (key a)); simpl; lia.
Qed.

(** What the category stage does with an empty selection and with every
    value selected, on a view whose column has both blank and filled cells. *)
Lemma category_filter_blank_rows s v dr rs :
  value_of "df_filtered" s = Some v →
  has_column "Category" v = true →
  (df_filtered_after (category_filter (picks dr [] rs)) s = Ok v)
  ∧ ((∃ r, In r (rows v) ∧ Category r ≠ None) →
     df_filtered_after (category_filter (picks dr (Category_options v) rs)) s
     = Ok (restrict (λ r, pd.notna (Category r)) v))
  ∧ ((∀ r, In r (rows v) → Category r = None) →
     df_filtered_after (category_filter (picks dr (Category_options v) rs)) s = Ok v).
Proof.
  intros Hv Hc. rewrite !(df_filtered_after_category_filter _ _ _ Hv). simpl.
  split; [|split].
  - rewrite restrict_all; [reflexivity|]. intros r _.
    unfold category_predicate. rewrite Hc. reflexivity.
  - intros (r0 & Hr0 & Hk0). f_equal. unfold restrict. f_equal.
    apply filter_ext_in. intros r Hr.
    rewrite category_predicate_all_options by assumption.
    destruct (Category_options v) eqn:E; [|reflexivity].
    unfold Category_options in E.
    rewrite (proj1 (options_nil Category (rows v)) E r0 Hr0) in Hk0. congruence.
  - intros Hall. rewrite restrict_all; [reflexivity|]. intros r Hr.
    rewrite category_predicate_all_options by assumption.
    unfold Category_options. rewrite (proj2 (options_nil Category (rows v)) Hall).
    reflexivity.
Qed.

Lemma region_filter_blank_rows s v dr cs :
  value_of "df_filtered" s = Some v →
  has_column "Region" v = true →
  (df_filtered_after (region_filter (picks dr cs [])) s = Ok v)
  ∧ ((∃ r, In r (rows v) ∧ Region r ≠ None) →
     df_filtered_after (region_filter (picks dr cs (Region_options v))) s
     = Ok (restrict (λ r, pd.notna (Region r)) v))
  ∧ ((∀ r, In r (rows v) → Region r = None) →
     df_filtered_after (region_filter (picks dr cs (Region_options v))) s = Ok v).
Proof.
  intros Hv Hc. rewrite !(df_filtered_after_region_filter _ _ _ Hv). simpl.
  split; [|split].
  - rewrite restrict_all; [reflexivity|]. intros r _.
    unfold region_predicate. rewrite Hc. reflexivity.
  - intros (r0 & Hr0 & Hk0). f_equal. unfold restrict. f_equal.
    apply filter_ext_in. intros r Hr.
    rewrite region_predicate_all_options by assumption.
    destruct (Region_options v) eqn:E; [|reflexivity].
    unfold Region_options in E.
    rewrite (proj1 (options_nil Region (rows v)) E r0 Hr0) in Hk0. congruence.
  - intros Hall. rewrite restrict_all; [reflexivity|]. intros r Hr.
    rewrite region_predicate_all_options by assumption.
    unfold Region_options. rewrite (proj2 (options_nil Region (rows v)) Hall).
    reflexivity.
Qed.

Lemma blank_or_filled (key : Row → option string) (rs : list Row) :
  (∀ r, In r rs → key r = None) ∨ (∃ r, In r rs ∧ key r ≠ None).
Proof.
  induction rs as [|a rs [IH|(r & Hr & Hk)]].
  - left. intros r [].
  - destruct (key a) eqn:E.
    + right. exists a. split; [left; reflexivity|congruence].
    + left. intros r [<-|Hr]; auto.
  - right. exists r. split; [right; exact Hr|exact Hk].
Qed.

Lemma restrict_notna_same {A} (key : Row → option A) v :
  restrict (λ r, pd.notna (key r)) v = v ↔ ∀ r, In r (rows v) → key r ≠ None.
Proof.
  split.
  - intros E r Hr. pose proof (restrict_fixpoint _ _ E r Hr) as H.
    simpl in H. intros Hk. rewrite Hk in H. discriminate H.
  - intros H. apply restrict_all. intros r Hr. specialize (H r Hr).
    destruct (key r); [reflexivity|congruence].
Qed.

(** C2, as the code has it.  On a view with a Category (Region) column the
    category (region) stage gives the same view for the empty selection and
    for the selection of all distinct non-missing values exactly when no row
    of the view has a missing Category (Region), or every row has. *)
Theorem empty_selection_same_as_all_values
    (s : State) (v : DataFrame) (dr : list date) (cs rs : list string) :
  value_of "df_filtered" s = Some v →
  (has_column "Category" v = true →
   (df_filtered_after (category_filter (picks dr [] rs)) s
    = df_filtered_after (category_filter (picks dr (Category_options v) rs)) s
    ↔ (∀ r, In r (rows v) → Category r ≠ None)
      ∨ (∀ r, In r (rows v) → Category r = None)))
  ∧ (has_column "Region" v = true →
     (df_filtered_after (region_filter (picks dr cs [])) s
      = df_filtered_after (region_filter (picks dr cs (Region_options v))) s
      ↔ (∀ r, In r (rows v) → Region r ≠ None)
        ∨ (∀ r, In r (rows v) → Region r = None))).
Proof.
  intros Hv. split; intros Hc.
  - destruct (category_filter_blank_rows s v dr rs Hv Hc) as (E0 & Esome & Hall).
    rewrite E0. split.
    + intros E. destruct (blank_or_filled Category (rows v)) as [Hb|Hf]; [right; exact Hb|].
      left. rewrite (Esome Hf) in E. injection E as E.
      apply restrict_notna_same. symmetry. exact E.
    + intros [Hfilled|Hblank]; [|rewrite (Hall Hblank); reflexivity].
      destruct (blank_or_filled Category (rows v)) as [Hb|Hf];
        [rewrite (Hall Hb); reflexivity|].
      rewrite (Esome Hf). f_equal. symmetry. apply restrict_notna_same. exact Hfilled.
  - destruct (region_filter_blank_rows s v dr cs Hv Hc) as (E0 & Esome & Hall).
    rewrite E0. split.
    + intros E. destruct (blank_or_filled Region (rows v)) as [Hb|Hf]; [right; exact Hb|].
      left. rewrite (Esome Hf) in E. injection E as E.
      apply restrict_notna_same. symmetry. exact E.
    + intros [Hfilled|Hblank]; [|rewrite (Hall Hblank); reflexivity].
      destruct (blank_or_filled Region (rows v)) as [Hb|Hf];
        [rewrite (Hall Hb); reflexivity|].
      rewrite (Esome Hf). f_equal. symmetry. apply restrict_notna_same. exact Hfilled.
Qed.

(** On [tidy_orders] no cell is blank: the selections of all values are
    ["Toys"; "Food"] and ["East"; "West"], the stages filter with them and
    keep every row, as the empty selections do.  On [unlabelled] every cell
    is blank and the selection of all values is the empty one. *)
Lemma empty_selection_same_as_all_values_witness :
  (Category_options tidy_orders = ["Toys"; "Food"]
   ∧ df_filtered_after (category_filter (picks [] [] [])) tidy_copied
     = df_filtered_after
         (category_filter (picks [] (Category_options tidy_orders) [])) tidy_copied)
  ∧ (Region_options tidy_orders = ["East"; "West"]
     ∧ df_filtered_after (region_filter (picks [] [] [])) tidy_copied
       = df_filtered_after
           (region_filter (picks [] [] (Region_options tidy_orders))) tidy_copied)
  ∧ df_filtered_after (category_filter (picks [] [] [])) unlabelled_copied
    = df_filtered_after
        (category_filter (picks [] (Category_options unlabelled) [])) unlabelled_copied.
Proof.
  destruct (empty_selection_same_as_all_values tidy_copied tidy_orders [] [] [] eq_refl)
    as [HC HR].
  destruct (empty_selection_same_as_all_values unlabelled_copied unlabelled [] [] [] eq_refl)
    as [HC' _].
  split; [|split].
  - split; [reflexivity|]. apply (HC eq_refl). left.
    intros r [<-|[<-|[]]]; discriminate.
  - split; [reflexivity|]. apply (HR eq_refl). left.
    intros r [<-|[<-|[]]]; discriminate.
  - apply (HC' eq_refl). right.
    intros r [<-|[<-|[]]]; reflexivity.
Defined.

(** C2 as stated fails on [orders]: its second row has no category; the
    empty selection keeps that row, the selection of all values drops it. *)
Lemma empty_selection_differs_from_all_values :
  value_of "df_filtered" orders_copied = Some orders
  ∧ has_column "Category" orders = true
  ∧ df_filtered_after (category_filter (picks [] [] [])) orders_copied
    ≠ df_filtered_after
        (category_filter (picks [] (Category_options orders) [])) orders_copied.
Proof.
  split; [reflexivity|]. split; [reflexivity|].
  vm_compute. discriminate.
Qed.

(** C10, as the code has it.  On a view whose Category (Region) column has
    at least one missing and at least one non-missing value, the stage with
    all distinct non-missing values selected keeps exactly the rows whose
    Category (Region) is present, so the view gets shorter, while the empty
    selection returns the view whole. *)
Theorem all_values_selection_drops_blank_rows
    (s : State) (v : DataFrame) (dr : list date) (cs rs : list string) :
  value_of "df_filtered" s = Some v →
  (has_column "Category" v = true →
   (∃ r, In r (rows v) ∧ Category r = None) →
   (∃ r, In r (rows v) ∧ Category r ≠ None) →
   df_filtered_after (category_filter (picks dr (Category_options v) rs)) s
   = Ok (restrict (λ r, pd.notna (Category r)) v)
   ∧ length (rows (restrict (λ r, pd.notna (Category r)) v)) < length (rows v)
   ∧ df_filtered_after (category_filter (picks dr [] rs)) s = Ok v)
  ∧ (has_column "Region" v = true →
     (∃ r, In r (rows v) ∧ Region r = None) →
     (∃ r, In r (rows v) ∧ Region r ≠ None) →
     df_filtered_after (region_filter (picks dr cs (Region_options v))) s
     = Ok (restrict (λ r, pd.notna (Region r)) v)
     ∧ length (rows (restrict (λ r, pd.notna (Region r)) v)) < length (rows v)
     ∧ df_filtered_after (region_filter (picks dr cs [])) s = Ok v).
Proof.
  intros Hv. split; intros Hc Hblank Hfilled.
  - destruct (category_filter_blank_rows s v dr rs Hv Hc) as (E0 & Esome & _).
    split; [exact (Esome Hfilled)|].
    split; [apply restrict_notna_shorter; exact Hblank|exact E0].
  - destruct (region_filter_blank_rows s v dr cs Hv Hc) as (E0 & Esome & _).
    split; [exact (Esome Hfilled)|].
    split; [apply restrict_notna_shorter; exact Hblank|exact E0].
Qed.

Lemma all_values_selection_drops_blank_rows_witness :
  (df_filtered_after (category_filter (picks [] (Category_options orders) [])) orders_copied
   = Ok (restrict (λ r, pd.notna (Category r)) orders)
   ∧ length (rows (restrict (λ r, pd.notna (Category r)) orders)) < length (rows orders)
   ∧ df_filtered_after (category_filter (picks [] [] [])) orders_copied = Ok orders)
  ∧ (df_filtered_after (region_filter (picks [] [] (Region_options orders))) orders_copied
     = Ok (restrict (λ r, pd.notna (Region r)) orders)
     ∧ length (rows (restrict (λ r, pd.notna (Region r)) orders)) < length (rows orders)
     ∧ df_filtered_after (region_filter (picks [] [] [])) orders_copied = Ok orders).
Proof.
  destruct (all_values_selection_drops_blank_rows orders_copied orders [] [] [] eq_refl)
    as [HC HR].
  split.
  - apply HC; [reflexivity| |].
    + eexists. split; [right; left; reflexivity|reflexivity].
    + eexists. split; [left; reflexivity|discriminate].
  - apply HR; [reflexivity| |].
    + eexists. split; [right; right; left; reflexivity|reflexivity].
    + eexists. split; [left; reflexivity|discriminate].
Defined.

(** C10 as stated fails on [unlabelled]: every Category is missing, so the
    selection of all distinct non-missing values is the empty one and the
    stage keeps the rows with a missing Category. *)
Lemma all_values_selection_keeps_blank_rows :
  value_of "df_filtered" unlabelled_copied = Some unlabelled
  ∧ has_column "Category" unlabelled = true
  ∧ (∃ r, In r (rows unlabelled) ∧ Category r = None)
  ∧ df_filtered_after
      (category_filter (picks [] (Category_options unlabelled) [])) unlabelled_copied
    = Ok unlabelled.
Proof.
  split; [reflexivity|]. split; [reflexivity|]. split.
  - eexists. split; [left; reflexivity|reflexivity].
  - reflexivity.
Qed.

(** ** Order of dates and timestamps *)

Lemma date_leb_spec a b :
  date_leb a b = true ↔
  (year a < year b
   ∨ (year a = year b
      ∧ (month a < month b ∨ (month a = month b ∧ day a ≤ day b))))%Z.
Proof.
  unfold date_leb, date_compare.
  destruct (Z.compare_spec (year a) (year b));
    destruct (Z.compare_spec (month a) (month b));
    destruct (Z.compare_spec (day a) (day b));
    split; intros; try discriminate; try reflexivity; lia.
Qed.

Lemma Timestamp_leb_spec a b :
  Timestamp_leb a b = true ↔
  (year (ts_date a) < year (ts_date b)
   ∨ (year (ts_date a) = year (ts_date b)
      ∧ (month (ts_date a) < month (ts_date b)
         ∨ (month (ts_date a) = month (ts_date b)
            ∧ (day (ts_date a) < day (ts_date b)
               ∨ (day (ts_date a) = day (ts_date b)
                  ∧ ts_nanos a ≤ ts_nanos b))))))%Z.
Proof.
  unfold Timestamp_leb, date_compare. rewrite <- Z.leb_le.
  destruct (Z.compare_spec (year (ts_date a)) (year (ts_date b)));
    destruct (Z.compare_spec (month (ts_date a)) (month (ts_date b)));
    destruct (Z.compare_spec (day (ts_date a)) (day (ts_date b)));
    split; intros; try discriminate; try reflexivity; try lia;
    try (right; split; [assumption|right; split; [assumption|right; split; assumption]]).
Qed.

Lemma Timestamp_leb_date a b :
  Timestamp_leb a b = true → date_leb (ts_date a) (ts_date b) = true.
Proof. rewrite Timestamp_leb_spec, date_leb_spec. lia. Qed.

Lemma Timestamp_leb_trans a b c :
  Timestamp_leb a b = true → Timestamp_leb b c = true → Timestamp_leb a c = true.
Proof. rewrite !Timestamp_leb_spec. lia. Qed.

Lemma Timestamp_leb_total a b : Timestamp_leb a b = true ∨ Timestamp_leb b a = true.
Proof. rewrite !Timestamp_leb_spec. lia. Qed.

Lemma Timestamp_leb_refl a : Timestamp_leb a a = true.
Proof. rewrite Timestamp_leb_spec. lia. Qed.

Lemma fold_Timestamp_min_le ts t :
  Timestamp_leb (fold_left Timestamp_min ts t) t = true
  ∧ ∀ x, In x ts → Timestamp_leb (fold_left Timestamp_min ts t) x = true.
Proof.
  revert t. induction ts as [|a ts IH]; intros t; simpl.
  - split; [apply Timestamp_leb_refl|intros x []].
  - destruct (IH (Timestamp_min t a)) as [H1 H2].
    assert (Ht : Timestamp_leb (Timestamp_min t a) t = true
                 ∧ Timestamp_leb (Timestamp_min t a) a = true).
    { unfold Timestamp_min. destruct (Timestamp_leb t a) eqn:E.
      - split; [apply Timestamp_leb_refl|exact E].
      - split; [|apply Timestamp_leb_refl].
        destruct (Timestamp_leb_total t a) as [H|H]; [congruence|exact H]. }
    destruct Ht as [Ht Ha].
    split; [eapply Timestamp_leb_trans; eassumption|].
    intros x [<-|Hx]; [eapply Timestamp_leb_trans; eassumption|auto].
Qed.

Lemma fold_Timestamp_max_ge ts t :
  Timestamp_leb t (fold_left Timestamp_max ts t) = true
  ∧ ∀ x, In x ts → Timestamp_leb x (fold_left Timestamp_max ts t) = true.
Proof.
  revert t. induction ts as [|a ts IH]; intros t; simpl.
  - split; [apply Timestamp_leb_refl|intros x []].
  - destruct (IH (Timestamp_max t a)) as [H1 H2].
    assert (Ht : Timestamp_leb t (Timestamp_max t a) = true
                 ∧ Timestamp_leb a (Timestamp_max t a) = true).
    { unfold Timestamp_max. destruct (Timestamp_leb t a) eqn:E.
      - split; [exact E|apply Timestamp_leb_refl].
      - split; [apply Timestamp_leb_refl|].
        destruct (Timestamp_leb_total t a) as [H|H]; [congruence|exact H]. }
    destruct Ht as [Ht Ha].
    split; [eapply Timestamp_leb_trans; eassumption|].
    intros x [<-|Hx]; [eapply Timestamp_leb_trans; eassumption|auto].
Qed.

(** Every date of the column lies between [min_date] and [max_date]. *)
Lemma min_date_le df mn r t :
  min_date df = Ok mn → In r (rows df) → OrderDate r = Some t →
  date_leb mn (ts_date t) = true.
Proof.
  unfold min_date, pd.min. intros E Hr Ht.
  assert (Hin : In t (pd.dropna (map OrderDate (rows df))))
    by (apply In_dropna, in_map_iff; eauto).
  destruct (pd.dropna (map OrderDate (rows df))) as [|t0 ts]; [destruct Hin|].
  simpl in E. injection E as <-.
  destruct (fold_Timestamp_min_le ts t0) as [H0 H1].
  apply Timestamp_leb_date. destruct Hin as [<-|Hin]; auto.
Qed.

Lemma max_date_ge df mx r t :
  max_date df = Ok mx → In r (rows df) → OrderDate r = Some t →
  date_leb (ts_date t) mx = true.
Proof.
  unfold max_date, pd.max. intros E Hr Ht.
  assert (Hin : In t (pd.dropna (map OrderDate (rows df))))
    by (apply In_dropna, in_map_iff; eauto).
  destruct (pd.dropna (map OrderDate (rows df))) as [|t0 ts]; [destruct Hin|].
  simpl in E. injection E as <-.
  destruct (fold_Timestamp_max_ge ts t0) as [H0 H1].
  apply Timestamp_leb_date. destruct Hin as [<-|Hin]; auto.
Qed.

Lemma existsb_notna {A} (key : Row → option A) rs :
  (∃ r, In r rs ∧ key r ≠ None) → existsb pd.notna (map key rs) = true.
Proof.
  intros (r & Hr & Hk). apply existsb_exists. exists (key r).
  split; [apply in_map, Hr|]. destruct (key r); [reflexivity|congruence].
Qed.

Lemma df_filtered_after_date_filter ui s df :
  value_of "df" s = Some df →
  value_of "df_filtered" s = Some df →
  df_filtered_after (date_filter ui) s
  = Ok (restrict (date_predicate df (date_range ui df)) df).
Proof.
  intros Hdf Hv.
  destruct (date_filter_run ui s df df Hdf Hv eq_refl) as (s' & R & V & _).
  unfold df_filtered_after. rewrite R, V. reflexivity.
Qed.

(** C9. On a table whose OrderDate column has at least one parsed and at
    least one unparsed date, the date stage with the default range
    [min_date, max_date] keeps exactly the rows whose date parsed: the rows
    with an unparsed date are gone and the view is shorter than the table. *)
Theorem default_date_range_drops_unparsed_rows (s : State) (df : DataFrame) :
  value_of "df" s = Some df →
  value_of "df_filtered" s = Some df →
  has_column "OrderDate" df = true →
  (∃ r, In r (rows df) ∧ OrderDate r ≠ None) →
  (∃ r, In r (rows df) ∧ OrderDate r = None) →
  df_filtered_after (date_filter untouched) s
  = Ok (restrict (λ r, pd.notna (OrderDate r)) df)
  ∧ length (rows (restrict (λ r, pd.notna (OrderDate r)) df)) < length (rows df)
  ∧ restrict (λ r, pd.notna (OrderDate r)) df ≠ df.
Proof.
  intros Hdf Hv Hc Hparsed Hunparsed.
  split; [|split].
  - rewrite (df_filtered_after_date_filter _ _ _ Hdf Hv). f_equal.
    unfold restrict. f_equal. apply filter_ext_in. intros r Hr.
    pose proof (existsb_notna OrderDate _ Hparsed) as Hany.
    unfold date_predicate, date_range. rewrite Hc, Hany. simpl.
    destruct (min_date_Ok df Hany) as [mn Hmn].
    destruct (max_date_Ok df Hany) as [mx Hmx].
    rewrite Hmn, Hmx. simpl.
    destruct (OrderDate r) as [t|] eqn:Et; simpl; [|reflexivity].
    rewrite (min_date_le df mn r t Hmn Hr Et), (max_date_ge df mx r t Hmx Hr Et).
    reflexivity.
  - apply restrict_notna_shorter. exact Hunparsed.
  - intros E. destruct Hunparsed as (r & Hr & Hk).
    apply (proj1 (restrict_notna_same OrderDate df) E r Hr Hk).
Qed.

Lemma default_date_range_drops_unparsed_rows_witness :
  df_filtered_after (date_filter untouched) orders_copied
  = Ok (restrict (λ r, pd.notna (OrderDate r)) orders)
  ∧ length (rows (restrict (λ r, pd.notna (OrderDate r)) orders)) < length (rows orders)
  ∧ restrict (λ r, pd.notna (OrderDate r)) orders ≠ orders.
Proof.
  apply (default_date_range_drops_unparsed_rows orders_copied orders);
    [reflexivity|reflexivity|reflexivity| |].
  - eexists. split; [left; reflexivity|discriminate].
  - eexists. split; [right; right; left; reflexivity|reflexivity].
Defined.

(** ** Key performance indicators *)

Lemma Qc_of_nat_nonzero n : 0 < n → Qc_of_nat n ≠ 0%Qc.
Proof.
  intros Hn E. unfold Qc_of_nat in E.
  change 0%Qc with (Q2Qc 0) in E. apply Q2Qc_eq_iff in E.
  unfold Qeq in E. simpl in E. lia.
Qed.

(** C5. The average order value is total sales divided by total orders when
    there is at least one order and 0 when there is none; the divisor of the
    division that is carried out is not zero, and the computation never
    raises a division by zero. *)
Theorem avg_order_value_guarded (df_filtered : DataFrame) :
  (0 < total_orders df_filtered →
   avg_order_value df_filtered
   = Ok (total_sales df_filtered / Qc_of_nat (total_orders df_filtered))%Qc
   ∧ Qc_of_nat (total_orders df_filtered) ≠ 0%Qc)
  ∧ (total_orders df_filtered = 0 → avg_order_value df_filtered = Ok 0%Qc)
  ∧ avg_order_value df_filtered ≠ Raise ZeroDivisionError.
Proof.
  unfold avg_order_value, truediv.
  destruct (total_orders df_filtered) as [|n] eqn:E.
  - split; [lia|]. split; [reflexivity|]. simpl. discriminate.
  - rewrite bool_decide_eq_true_2 by lia.
    split; [|split; [discriminate|discriminate]].
    intros _. split; [reflexivity|]. apply Qc_of_nat_nonzero. lia.
Qed.

Lemma avg_order_value_guarded_witness :
  (avg_order_value orders = Ok (total_sales orders / Qc_of_nat (total_orders orders))%Qc
   ∧ Qc_of_nat (total_orders orders) ≠ 0%Qc)
  ∧ avg_order_value no_rows = Ok 0%Qc.
Proof.
  split.
  - apply (avg_order_value_guarded orders). vm_compute. lia.
  - apply (avg_order_value_guarded no_rows). reflexivity.
Defined.

(** ** Trend *)

Lemma iloc_last pre a b : series.iloc (pre ++ [a; b]) (-1) = Ok b.
Proof.
  unfold series.iloc. rewrite length_app. simpl.
  destruct (Z.ltb_spec (Z.of_nat (length pre + 2) + -1) 0); [lia|].
  replace (Z.to_nat (Z.of_nat (length pre + 2) + -1)) with (length pre + 1) by lia.
  rewrite lookup_app_r by lia.
  replace (length pre + 1 - length pre) with 1 by lia. reflexivity.
Qed.

Lemma iloc_previous pre a b : series.iloc (pre ++ [a; b]) (-2) = Ok a.
Proof.
  unfold series.iloc. rewrite length_app. simpl.
  destruct (Z.ltb_spec (Z.of_nat (length pre + 2) + -2) 0); [lia|].
  replace (Z.to_nat (Z.of_nat (length pre + 2) + -2)) with (length pre + 0) by lia.
  rewrite lookup_app_r by lia.
  replace (length pre + 0 - length pre) with 0 by lia. reflexivity.
Qed.

Lemma last_two {A} (s : list A) :
  2 ≤ length s → ∃ pre a b, s = pre ++ [a; b].
Proof.
  intros H. destruct s as [|b s _] using rev_ind; [simpl in H; lia|].
  destruct s as [|a s _] using rev_ind; [simpl in H; lia|].
  exists s, a, b. rewrite <- app_assoc. reflexivity.
Qed.

Lemma trend_last_two pre previous last :
  trend (pre ++ [previous; last])
  = Ok [if bool_decide (previous < last)%Qc then Sales_increasing else Sales_declining].
Proof.
  unfold trend. rewrite bool_decide_eq_true_2 by (rewrite length_app; simpl; lia).
  rewrite iloc_last, iloc_previous. simpl.
  destruct (bool_decide (previous < last)%Qc); reflexivity.
Qed.

Lemma trend_short s : length s < 2 → trend s = Ok [].
Proof.
  intros H. unfold trend. rewrite bool_decide_eq_false_2 by lia. reflexivity.
Qed.

(** C4. On a view with OrderDate and Sales columns: when the monthly sums
    end with [previous; last], the trend insight is "increasing" if
    [previous < last] and "declining" otherwise, and such a pair exists as
    soon as there are two buckets; with fewer than two buckets nothing is
    emitted; sums [100, 100] give "declining" and [100, 150] "increasing". *)
Theorem trend_insight_rule (df_filtered : DataFrame) :
  has_column "OrderDate" df_filtered = true →
  has_column "Sales" df_filtered = true →
  (∀ pre previous last,
      sales_over_time df_filtered = pre ++ [previous; last] →
      trend_insight df_filtered
      = Ok [if bool_decide (previous < last)%Qc then Sales_increasing else Sales_declining])
  ∧ (2 ≤ length (sales_over_time df_filtered) →
     ∃ pre previous last, sales_over_time df_filtered = pre ++ [previous; last])
  ∧ (length (sales_over_time df_filtered) < 2 → trend_insight df_filtered = Ok [])
  ∧ (sales_over_time df_filtered = [dollars 100; dollars 100] →
     trend_insight df_filtered = Ok [Sales_declining])
  ∧ (sales_over_time df_filtered = [dollars 100; dollars 150] →
     trend_insight df_filtered = Ok [Sales_increasing]).
Proof.
  intros Hd Hs. unfold trend_insight. rewrite Hd, Hs. simpl.
  split; [|split; [|split; [|split]]].
  - intros pre previous last ->. apply trend_last_two.
  - apply last_two.
  - apply trend_short.
  - intros ->. reflexivity.
  - intros ->. reflexivity.
Qed.

Lemma trend_insight_rule_witness :
  trend_insight flat_months = Ok [Sales_declining]
  ∧ trend_insight rising_months = Ok [Sales_increasing].
Proof.
  split.
  - destruct (trend_insight_rule flat_months eq_refl eq_refl) as (_ & _ & _ & H & _).
    apply H. reflexivity.
  - destruct (trend_insight_rule rising_months eq_refl eq_refl) as (_ & _ & _ & _ & H).
    apply H. reflexivity.
Defined.

(** ** Insights *)

Lemma insert_not_nil {A} (leb : A → A → bool) x l : series.insert leb x l ≠ [].
Proof. destruct l as [|y t]; simpl; [discriminate|]. destruct (leb x y); discriminate. Qed.

Lemma sort_nil {A} (leb : A → A → bool) l : series.sort leb l = [] → l = [].
Proof.
  destruct l as [|x t]; simpl; [reflexivity|].
  intros E. destruct (insert_not_nil leb x (series.sort leb t) E).
Qed.

Lemma existsb_notna_false {A} (key : Row → option A) rs :
  existsb (λ r, pd.notna (key r)) rs = false → ∀ r, In r rs → key r = None.
Proof.
  intros H r Hr. destruct (key r) eqn:E; [|reflexivity].
  assert (Ht : existsb (λ r, pd.notna (key r)) rs = true)
    by (apply existsb_exists; exists r; rewrite E; auto).
  congruence.
Qed.

Lemma existsb_notna_true {A} (key : Row → option A) rs :
  existsb (λ r, pd.notna (key r)) rs = true → ∃ r, In r rs ∧ key r ≠ None.
Proof.
  intros H. apply existsb_exists in H. destruct H as (r & Hr & Hk).
  exists r. split; [exact Hr|]. destruct (key r); [discriminate|discriminate Hk].
Qed.

(** A group exists exactly when some row has a key. *)
Lemma groupby_sum_nil key val rs :
  series.groupby_sum key val rs = []
  ↔ existsb (λ r, pd.notna (key r)) rs = false.
Proof.
  unfold series.groupby_sum. split.
  - intros E. apply map_eq_nil, sort_nil in E.
    pose proof (proj1 (options_nil key rs) E) as Hall.
    destruct (existsb (λ r, pd.notna (key r)) rs) eqn:Hex; [|reflexivity].
    apply existsb_notna_true in Hex. destruct Hex as (r & Hr & Hk).
    destruct (Hk (Hall r Hr)).
  - intros H.
    pose proof (proj2 (options_nil key rs) (existsb_notna_false key rs H)) as E.
    unfold options_of in E. rewrite E. reflexivity.
Qed.

Lemma region_insight_shape v :
  ∃ r, region_insight v = Ok r
       ∧ if has_column "Region" v && has_column "Sales" v
            && existsb (λ x, pd.notna (Region x)) (rows v)
         then ∃ top_region sales, r = [Top_region top_region sales]
         else r = [].
Proof.
  unfold region_insight.
  destruct (has_column "Region" v && has_column "Sales" v); simpl; [|eauto].
  destruct (existsb (λ x, pd.notna (Region x)) (rows v)) eqn:Hex.
  - destruct (region_sales v) as [|x t] eqn:E.
    + apply groupby_sum_nil in E. congruence.
    + simpl. eauto.
  - unfold region_sales.
    rewrite (proj2 (groupby_sum_nil Region Sales (rows v)) Hex). eauto.
Qed.

Lemma category_insight_shape v :
  ∃ c, category_insight v = Ok c
       ∧ if has_column "Category" v && has_column "Sales" v
            && existsb (λ x, pd.notna (Category x)) (rows v)
         then ∃ top_cat, c = [Top_category top_cat]
         else c = [].
Proof.
  unfold category_insight.
  destruct (has_column "Category" v && has_column "Sales" v); simpl; [|eauto].
  destruct (existsb (λ x, pd.notna (Category x)) (rows v)) eqn:Hex.
  - destruct (cat_sales v) as [|x t] eqn:E.
    + apply groupby_sum_nil in E. congruence.
    + simpl. eauto.
  - unfold cat_sales.
    rewrite (proj2 (groupby_sum_nil Category Sales (rows v)) Hex). eauto.
Qed.

Lemma trend_insight_shape v :
  ∃ t, trend_insight v = Ok t
       ∧ if has_column "OrderDate" v && has_column "Sales" v
            && bool_decide (2 ≤ length (sales_over_time v))
         then t = [Sales_increasing] ∨ t = [Sales_declining]
         else t = [].
Proof.
  unfold trend_insight.
  destruct (has_column "OrderDate" v && has_column "Sales" v); simpl; [|eauto].
  destruct (bool_decide (2 ≤ length (sales_over_time v))) eqn:Hlen.
  - apply bool_decide_eq_true in Hlen.
    destruct (last_two _ Hlen) as (pre & a & b & ->).
    rewrite trend_last_two. eexists. split; [reflexivity|].
    destruct (bool_decide (a < b)%Qc); auto.
  - apply bool_decide_eq_false in Hlen.
    rewrite trend_short by lia. eauto.
Qed.

(** C6. The insight list is the region entry, then the category entry, then
    the trend entry, each present exactly under its condition (the columns
    it needs, and a non-empty grouping, or two monthly buckets for the
    trend); it has at most three entries; an empty list is shown as the
    "no insights" notice and any other list as its numbered entries. *)
Theorem insights_shape (df_filtered : DataFrame) :
  ∃ r c t,
    insights df_filtered = Ok (r ++ c ++ t)
    ∧ (if has_column "Region" df_filtered && has_column "Sales" df_filtered
          && existsb (λ x, pd.notna (Region x)) (rows df_filtered)
       then ∃ top_region sales, r = [Top_region top_region sales]
       else r = [])
    ∧ (if has_column "Category" df_filtered && has_column "Sales" df_filtered
          && existsb (λ x, pd.notna (Category x)) (rows df_filtered)
       then ∃ top_cat, c = [Top_category top_cat]
       else c = [])
    ∧ (if has_column "OrderDate" df_filtered && has_column "Sales" df_filtered
          && bool_decide (2 ≤ length (sales_over_time df_filtered))
       then t = [Sales_increasing] ∨ t = [Sales_declining]
       else t = [])
    ∧ length (r ++ c ++ t) ≤ 3
    ∧ (r = [] ∧ c = [] ∧ t = [] →
       show_insights (r ++ c ++ t)
       = [st_info "No insights generated based on current filters."])
    ∧ (r ++ c ++ t ≠ [] →
       show_insights (r ++ c ++ t)
       = imap (λ i insight, st_markdown (S i) insight) (r ++ c ++ t)).
Proof.
  destruct (region_insight_shape df_filtered) as (r & Er & Hr).
  destruct (category_insight_shape df_filtered) as (c & Ec & Hc).
  destruct (trend_insight_shape df_filtered) as (t & Et & Ht).
  exists r, c, t.
  split; [unfold insights; rewrite Er, Ec, Et; reflexivity|].
  split; [exact Hr|]. split; [exact Hc|]. split; [exact Ht|].
  split; [|split].
  - assert (length r ≤ 1)
      by (destruct (_ && _ && _) in Hr; [destruct Hr as (? & ? & ->)|subst r]; simpl; lia).
    assert (length c ≤ 1)
      by (destruct (_ && _ && _) in Hc; [destruct Hc as (? & ->)|subst c]; simpl; lia).
    assert (length t ≤ 1)
      by (destruct (_ && _ && _) in Ht; [destruct Ht as [-> | ->]|subst t]; simpl; lia).
    rewrite !length_app. lia.
  - intros (-> & -> & ->). reflexivity.
  - intros Hne. unfold show_insights.
    destruct (r ++ c ++ t); [congruence|reflexivity].
Qed.

(** ** Sorting *)

Section Sorting.
Context {A : Type} (leb : A → A → bool).
Hypothesis leb_total : ∀ a b, leb a b = true ∨ leb b a = true.
Hypothesis leb_trans : ∀ a b c, leb a b = true → leb b c = true → leb a c = true.

Lemma insert_Permutation x l : Permutation (series.insert leb x l) (x :: l).
Proof.
  induction l as [|y t IH]; simpl; [reflexivity|].
  destruct (leb x y); [reflexivity|].
  rewrite IH. apply perm_swap.
Qed.

Lemma sort_Permutation l : Permutation (series.sort leb l) l.
Proof.
  induction l as [|x t IH]; simpl; [reflexivity|].
  rewrite insert_Permutation, IH. reflexivity.
Qed.

Lemma insert_StronglySorted x l :
  StronglySorted (λ a b, leb a b = true) l →
  StronglySorted (λ a b, leb a b = true) (series.insert leb x l).
Proof.
  induction 1 as [|y t Ht IH Hy]; simpl.
  - constructor; constructor.
  - destruct (leb x y) eqn:E.
    + constructor; [constructor; assumption|].
      constructor; [exact E|].
      eapply Forall_impl; [|exact Hy]. intros z Hz. eapply leb_trans; eassumption.
    + constructor; [exact IH|].
      eapply Permutation_Forall; [symmetry; apply insert_Permutation|].
      constructor; [|exact Hy].
      destruct (leb_total x y) as [H|H]; [congruence|exact H].
Qed.

Lemma sort_StronglySorted l : StronglySorted (λ a b, leb a b = true) (series.sort leb l).
Proof.
  induction l as [|x t IH]; simpl; [constructor|].
  apply insert_StronglySorted, IH.
Qed.
End Sorting.

(** A list sorted for [R] that is a permutation of a list sorted for [S] is
    that list, when [R a b] and [S b a] exclude each other. *)
Lemma sorted_unique {A} (R S : A → A → Prop) (l1 l2 : list A) :
  (∀ a b, R a b → S b a → False) →
  Permutation l1 l2 →
  StronglySorted R l1 → StronglySorted S l2 → l1 = l2.
Proof.
  intros HRS. revert l2. induction l1 as [|x l1 IH]; intros l2 Hp H1 H2.
  - apply Permutation_nil in Hp. congruence.
  - destruct l2 as [|y l2]; [symmetry in Hp; apply Permutation_nil in Hp; discriminate|].
    apply StronglySorted_inv in H1. destruct H1 as [H1 Hx].
    apply StronglySorted_inv in H2. destruct H2 as [H2 Hy].
    assert (E : x = y).
    { assert (Hxin : In x (y :: l2))
        by (eapply Permutation_in; [exact Hp|left; reflexivity]).
      assert (Hyin : In y (x :: l1))
        by (eapply Permutation_in; [symmetry; exact Hp|left; reflexivity]).
      destruct Hxin as [->|Hxin]; [reflexivity|].
      destruct Hyin as [->|Hyin]; [reflexivity|].
      rewrite Forall_forall in Hx, Hy.
      destruct (HRS x y (Hx y Hyin) (Hy x Hxin)). }
    subst y. f_equal. apply IH; [|assumption|assumption].
    eapply Permutation_cons_inv. exact Hp.
Qed.

Lemma StronglySorted_map {A B} (f : A → B) (R : B → B → Prop) (l : list A) :
  StronglySorted (λ a b, R (f a) (f b)) l → StronglySorted R (map f l).
Proof.
  induction 1 as [|x t Ht IH Hx]; simpl; constructor; [exact IH|].
  apply Forall_map. exact Hx.
Qed.

(** ** Top products *)

Lemma groupby_Product_sales v :
  series.groupby_sum Product Sales (rows v)
  = map (λ p, (p, product_sales v p))
        (series.sort String.leb (options_of Product (rows v))).
Proof. reflexivity. Qed.

(** The top-products series when the products, listed as [ps], have
    strictly decreasing totals. *)
Lemma top_products_decreasing v ps :
  Permutation ps (options_of Product (rows v)) →
  Sorted (λ p q, (product_sales v q < product_sales v p)%Qc) ps →
  top_products v = map (λ p, (p, product_sales v p)) (take 10 ps).
Proof.
  intros Hperm Hsorted. unfold top_products, series.head.
  rewrite <- firstn_map. f_equal.
  rewrite groupby_Product_sales. unfold series.sort_values_desc.
  apply (sorted_unique
           (λ a b : string * Qc, bool_decide (snd b ≤ snd a)%Qc = true)
           (λ a b : string * Qc, (snd b < snd a)%Qc)).
  - intros a b Hab Hba. apply bool_decide_eq_true in Hab.
    exact (Qclt_not_le _ _ Hba Hab).
  - rewrite sort_Permutation. apply Permutation_map.
    rewrite sort_Permutation. symmetry. exact Hperm.
  - apply sort_StronglySorted.
    + intros a b. rewrite !bool_decide_eq_true.
      destruct (Qclt_le_dec (snd a) (snd b)) as [H|H]; [right|left; exact H].
      apply Qclt_le_weak, H.
    + intros a b c. rewrite !bool_decide_eq_true. intros H1 H2.
      eapply Qcle_trans; eassumption.
  - apply StronglySorted_map. simpl.
    apply Sorted_StronglySorted; [|exact Hsorted].
    intros p q r Hpq Hqr. eapply Qclt_trans; eassumption.
Qed.

(** C7. On a view with Product and Sales columns whose distinct products
    are the fifteen names [ps], listed so that their summed sales strictly
    decrease, the top-products series is the first ten names of [ps] with
    their sums, in that order, and it is what the bar chart shows. *)
Theorem top_ten_of_fifteen_products (df_filtered : DataFrame) (ps : list string) :
  has_column "Product" df_filtered = true →
  has_column "Sales" df_filtered = true →
  length ps = 15 →
  Permutation ps (options_of Product (rows df_filtered)) →
  Sorted (λ p q, (product_sales df_filtered q < product_sales df_filtered p)%Qc) ps →
  top_products df_filtered = map (λ p, (p, product_sales df_filtered p)) (take 10 ps)
  ∧ length (top_products df_filtered) = 10
  ∧ top_products_section df_filtered
    = [st_plotly_bar "Top 10 Products by Sales"
         (map (λ p, (p, product_sales df_filtered p)) (take 10 ps))].
Proof.
  intros Hp Hs Hlen Hperm Hsorted.
  pose proof (top_products_decreasing df_filtered ps Hperm Hsorted) as E.
  split; [exact E|]. split.
  - rewrite E, length_map, length_take. lia.
  - unfold top_products_section. rewrite Hp, Hs, E. simpl.
    destruct ps as [|p ps]; [discriminate Hlen|reflexivity].
Qed.

Lemma top_ten_of_fifteen_products_witness :
  top_products fifteen_products
  = map (λ p, (p, product_sales fifteen_products p)) (take 10 fifteen_names)
  ∧ length (top_products fifteen_products) = 10
  ∧ top_products_section fifteen_products
    = [st_plotly_bar "Top 10 Products by Sales"
         (map (λ p, (p, product_sales fifteen_products p)) (take 10 fifteen_names))].
Proof.
  apply (top_ten_of_fifteen_products fifteen_products fifteen_names);
    [reflexivity|reflexivity|reflexivity| |].
  - apply (bool_decide_eq_true_1 _). vm_compute. reflexivity.
  - repeat constructor.
Defined.

(** * Further properties of the code *)

(** ** The filtered view as a part of the table *)

Lemma sublist_List_filter {A} (p : A → bool) (l : list A) : sublist (List.filter p l) l.
Proof.
  induction l as [|x l IH]; simpl; [constructor|].
  destruct (p x); [apply sublist_skip|apply sublist_cons]; exact IH.
Qed.

(** X1. Whatever the sidebar returns, the filtered view has the columns of
    the loaded table and its rows are rows of the table, in the table's
    order, none repeated or invented. *)
Theorem filtered_view_is_part_of_the_table (ui : Sidebar) (s : State) (df : DataFrame) :
  value_of "df" s = Some df →
  ∃ v, df_filtered_after (filters ui) s = Ok v
       ∧ columns v = columns df
       ∧ sublist (rows v) (rows df)
       ∧ length (rows v) ≤ length (rows df).
Proof.
  intros Hdf. exists (restrict (passes ui df) df).
  split; [apply df_filtered_after_filters, Hdf|].
  split; [reflexivity|]. simpl.
  split; [apply sublist_List_filter|apply filter_length_le].
Qed.

Lemma filtered_view_is_part_of_the_table_witness :
  ∃ v, df_filtered_after (filters untouched) (loaded orders) = Ok v
       ∧ columns v = columns orders
       ∧ sublist (rows v) (rows orders)
       ∧ length (rows v) ≤ length (rows orders).
Proof. apply (filtered_view_is_part_of_the_table untouched (loaded orders) orders eq_refl). Defined.

(** ** An untouched sidebar on a table without blank cells *)

Lemma date_predicate_default df r :
  In r (rows df) → OrderDate r ≠ None →
  date_predicate df (date_range untouched df) r = true.
Proof.
  intros Hr Hk. unfold date_predicate, date_range.
  destruct (has_column "OrderDate" df); simpl; [|reflexivity].
  destruct (existsb pd.notna (map OrderDate (rows df))) eqn:Hany; [|reflexivity].
  destruct (min_date_Ok df Hany) as [mn Hmn].
  destruct (max_date_Ok df Hany) as [mx Hmx].
  rewrite Hmn, Hmx. simpl.
  destruct (OrderDate r) as [t|] eqn:Et; [|congruence]. simpl.
  rewrite (min_date_le df mn r t Hmn Hr Et), (max_date_ge df mx r t Hmx Hr Et).
  reflexivity.
Qed.

Lemma date_predicate_no_column df dr r :
  has_column "OrderDate" df = false → date_predicate df dr r = true.
Proof. intros H. unfold date_predicate. rewrite H. reflexivity. Qed.

Lemma category_predicate_default df r :
  In r (rows df) →
  (has_column "Category" df = true → Category r ≠ None) →
  category_predicate df (Category_options df) r = true.
Proof.
  intros Hr Hk. destruct (has_column "Category" df) eqn:Hc.
  - rewrite category_predicate_all_options by assumption.
    destruct (Category_options df); [reflexivity|].
    destruct (Category r); [reflexivity|]. destruct (Hk eq_refl eq_refl).
  - unfold category_predicate. rewrite Hc. reflexivity.
Qed.

Lemma region_predicate_default df r :
  In r (rows df) →
  (has_column "Region" df = true → Region r ≠ None) →
  region_predicate df (Region_options df) r = true.
Proof.
  intros Hr Hk. destruct (has_column "Region" df) eqn:Hc.
  - rewrite region_predicate_all_options by assumption.
    destruct (Region_options df); [reflexivity|].
    destruct (Region r); [reflexivity|]. destruct (Hk eq_refl eq_refl).
  - unfold region_predicate. rewrite Hc. reflexivity.
Qed.

(** X3. On a table in which no OrderDate, Category or Region cell is
    missing (for the columns the table has), a sidebar left at its defaults
    filters nothing: the filtered view is the whole table. *)
Theorem untouched_sidebar_shows_everything (s : State) (df : DataFrame) :
  value_of "df" s = Some df →
  (has_column "OrderDate" df = true → ∀ r, In r (rows df) → OrderDate r ≠ None) →
  (has_column "Category" df = true → ∀ r, In r (rows df) → Category r ≠ None) →
  (has_column "Region" df = true → ∀ r, In r (rows df) → Region r ≠ None) →
  df_filtered_after (filters untouched) s = Ok df.
Proof.
  intros Hdf Hd Hc Hr. rewrite (df_filtered_after_filters _ _ _ Hdf). f_equal.
  assert (Ed : restrict (date_predicate df (date_range untouched df)) df = df).
  { apply restrict_all. intros r Hin.
    destruct (has_column "OrderDate" df) eqn:E.
    - apply date_predicate_default; auto.
    - apply date_predicate_no_column, E. }
  assert (Ec : categories untouched df = Category_options df)
    by (unfold categories; rewrite Ed; reflexivity).
  assert (Ecv : restrict (category_predicate df (categories untouched df)) df = df).
  { rewrite Ec. apply restrict_all. intros r Hin.
    apply category_predicate_default; auto. }
  assert (Er : regions untouched df = Region_options df)
    by (unfold regions; rewrite Ed, Ecv; reflexivity).
  apply restrict_all. intros r Hin. unfold passes.
  rewrite (restrict_fixpoint _ _ Ed r Hin), Ec, Er.
  rewrite category_predicate_default, region_predicate_default by auto.
  reflexivity.
Qed.

Lemma untouched_sidebar_shows_everything_witness :
  df_filtered_after (filters untouched) (loaded tidy_orders) = Ok tidy_orders.
Proof.
  apply untouched_sidebar_shows_everything; [reflexivity| | |];
    intros _ r [<-|[<-|[]]]; discriminate.
Defined.

(** ** Two stages in either order *)

Lemma df_filtered_after_bind (p q : M unit) s s1 :
  p s = Ok (tt, s1) →
  df_filtered_after (p;; q) s = df_filtered_after q s1.
Proof.
  intros E. unfold df_filtered_after. rewrite (bind_Ok _ _ _ _ _ E). reflexivity.
Qed.

(** X4. For fixed category and region selections the category stage and
    the region stage commute: run in either order from the same view they
    leave the same filtered view, the rows passing both tests. *)
Theorem category_and_region_stages_commute
    (dr : list date) (cs rs : list string) (s : State) (v : DataFrame) :
  value_of "df_filtered" s = Some v →
  df_filtered_after (category_filter (picks dr cs rs);; region_filter (picks dr cs rs)) s
  = Ok (restrict (λ r, category_predicate v cs r && region_predicate v rs r) v)
  ∧ df_filtered_after (region_filter (picks dr cs rs);; category_filter (picks dr cs rs)) s
    = Ok (restrict (λ r, category_predicate v cs r && region_predicate v rs r) v).
Proof.
  intros Hv. split.
  - destruct (category_filter_run (picks dr cs rs) s v Hv) as (s1 & R1 & V1 & _).
    rewrite (df_filtered_after_bind _ _ _ _ R1).
    rewrite (df_filtered_after_region_filter _ _ _ V1). simpl.
    rewrite restrict_restrict. reflexivity.
  - destruct (region_filter_run (picks dr cs rs) s v Hv) as (s1 & R1 & V1 & _).
    rewrite (df_filtered_after_bind _ _ _ _ R1).
    rewrite (df_filtered_after_category_filter _ _ _ V1). simpl.
    rewrite restrict_restrict. f_equal. apply restrict_ext. intros r.
    apply andb_comm.
Qed.

Lemma category_and_region_stages_commute_witness :
  df_filtered_after
    (category_filter (picks [] ["Food"] ["West"]);; region_filter (picks [] ["Food"] ["West"]))
    orders_copied
  = Ok (restrict (λ r, category_predicate orders ["Food"] r
                       && region_predicate orders ["West"] r) orders)
  ∧ df_filtered_after
      (region_filter (picks [] ["Food"] ["West"]);; category_filter (picks [] ["Food"] ["West"]))
      orders_copied
    = Ok (restrict (λ r, category_predicate orders ["Food"] r
                         && region_predicate orders ["West"] r) orders).
Proof. apply (category_and_region_stages_commute [] ["Food"] ["West"] orders_copied orders eq_refl). Defined.

(** ** Sidebar warnings *)

Lemma rebind_warnings d s s' :
  (new_object d ≫= assign "df_filtered") s = Ok (tt, s') → warnings s' = warnings s.
Proof. intros [= <-]. reflexivity. Qed.

Lemma copy_df_warnings s df s' :
  value_of "df" s = Some df → copy_df s = Ok (tt, s') → warnings s' = warnings s.
Proof.
  intros Hdf. unfold copy_df. rewrite (bind_Ok _ _ _ _ _ (read_var_Ok _ _ _ Hdf)).
  apply rebind_warnings.
Qed.

Lemma date_filter_warnings ui s df v s' :
  value_of "df" s = Some df →
  value_of "df_filtered" s = Some v →
  rows v = rows df →
  date_filter ui s = Ok (tt, s') →
  warnings s' = warnings s ++ date_warning ui df.
Proof.
  intros Hdf Hv Hrows. unfold date_filter, date_warning, date_range.
  rewrite (bind_Ok _ _ _ _ _ (read_var_Ok _ _ _ Hdf)).
  destruct (has_column "OrderDate" df); simpl;
    [destruct (existsb pd.notna (map OrderDate (rows df))) eqn:Hany|].
  - destruct (min_date_Ok df Hany) as [mn Hmn].
    destruct (max_date_Ok df Hany) as [mx Hmx].
    rewrite (bind_Ok _ _ _ _ _ (lift_Ok _ _ s Hmn)).
    rewrite (bind_Ok _ _ _ _ _ (lift_Ok _ _ s Hmx)).
    rewrite Hmn, Hmx.
    destruct (date_input ui mn mx) as [|a [|b [|c l]]].
    1,2,4: intros [= <-]; reflexivity.
    rewrite (bind_Ok _ _ _ _ _ (read_var_Ok _ _ _ Hv)).
    rewrite (bind_Ok _ _ _ _ _ (lift_getitem_Ok _ df v s Hrows)).
    intros R. rewrite (rebind_warnings _ _ _ R), app_nil_r. reflexivity.
  - intros [= <-]. rewrite app_nil_r. reflexivity.
  - intros [= <-]. rewrite app_nil_r. reflexivity.
Qed.

Lemma category_filter_warnings ui s v s' :
  value_of "df_filtered" s = Some v →
  category_filter ui s = Ok (tt, s') →
  warnings s'
  = warnings s ++ category_warning v (multiselect_Category ui (Category_options v)).
Proof.
  intros Hv. unfold category_filter, category_warning.
  rewrite (bind_Ok _ _ _ _ _ (read_var_Ok _ _ _ Hv)).
  destruct (has_column "Category" v).
  - destruct (multiselect_Category ui (Category_options v)) as [|c cs].
    + intros [= <-]. reflexivity.
    + rewrite (bind_Ok _ _ _ _ _ (lift_getitem_Ok _ v v s eq_refl)).
      intros R. rewrite (rebind_warnings _ _ _ R), app_nil_r. reflexivity.
  - intros [= <-]. rewrite app_nil_r. reflexivity.
Qed.

Lemma region_filter_warnings ui s v s' :
  value_of "df_filtered" s = Some v →
  region_filter ui s = Ok (tt, s') →
  warnings s'
  = warnings s ++ region_warning v (multiselect_Region ui (Region_options v)).
Proof.
  intros Hv. unfold region_filter, region_warning.
  rewrite (bind_Ok _ _ _ _ _ (read_var_Ok _ _ _ Hv)).
  destruct (has_column "Region" v).
  - destruct (multiselect_Region ui (Region_options v)) as [|c cs].
    + intros [= <-]. reflexivity.
    + rewrite (bind_Ok _ _ _ _ _ (lift_getitem_Ok _ v v s eq_refl)).
      intros R. rewrite (rebind_warnings _ _ _ R), app_nil_r. reflexivity.
  - intros [= <-]. rewrite app_nil_r. reflexivity.
Qed.

(** X5. The sidebar warnings of a run are exactly these, in this order: the
    date warning when the date widget is drawn and returns anything but two
    dates, the category warning when the table has a Category column and
    the category widget returns nothing, the region warning likewise; a
    stage that filters warns nothing. *)
Theorem sidebar_warnings_of_a_run (ui : Sidebar) (s : State) (df : DataFrame) :
  value_of "df" s = Some df →
  ∃ s', filters ui s = Ok (tt, s')
        ∧ warnings s'
          = warnings s ++ date_warning ui df
            ++ category_warning df (categories ui df)
            ++ region_warning df (regions ui df).
Proof.
  intros Hdf. unfold filters.
  destruct (copy_df_run s df Hdf) as (s0 & R0 & V0 & P0).
  assert (Hdf0 : value_of "df" s0 = Some df)
    by (eapply preserves_value_of; [exact P0|discriminate|exact Hdf]).
  destruct (date_filter_run ui s0 df df Hdf0 V0 eq_refl) as (s1 & R1 & V1 & P1).
  destruct (category_filter_run ui s1 _ V1) as (s2 & R2 & V2 & P2).
  pose proof (category_filter_warnings _ _ _ _ V1 R2) as W2.
  fold (categories ui df) in V2, W2.
  rewrite (restrict_ext _ (category_predicate df (categories ui df))) in V2
    by (intros r; apply category_predicate_columns; reflexivity).
  destruct (region_filter_run ui s2 _ V2) as (s3 & R3 & V3 & P3).
  pose proof (region_filter_warnings _ _ _ _ V2 R3) as W3.
  fold (regions ui df) in W3.
  exists s3.
  rewrite (bind_Ok _ _ _ _ _ R0), (bind_Ok _ _ _ _ _ R1), (bind_Ok _ _ _ _ _ R2).
  split; [exact R3|].
  rewrite W3, W2, (date_filter_warnings _ _ _ _ _ Hdf0 V0 eq_refl R1),
    (copy_df_warnings _ _ _ Hdf R0).
  rewrite <- !app_assoc. reflexivity.
Qed.

Lemma sidebar_warnings_of_a_run_witness :
  ∃ s', filters untouched (loaded unlabelled) = Ok (tt, s')
        ∧ warnings s'
          = ["No category selected. Showing all."; "No region selected. Showing all."].
Proof. apply (sidebar_warnings_of_a_run untouched (loaded unlabelled) unlabelled eq_refl). Defined.

(** ** Order count and average *)

Lemma length_dropna_le {A} (s : list (option A)) : length (pd.dropna s) ≤ length s.
Proof. induction s as [|[a|] s IH]; simpl; lia. Qed.

Lemma length_unique_le {A} `{EqDecision A} (l : list A) : length (pd.unique l) ≤ length l.
Proof.
  induction l as [|x l IH]; simpl; [lia|].
  pose proof (filter_length_le (λ y, negb (bool_decide (y = x))) (pd.unique l)). lia.
Qed.

Lemma nunique_le {A} `{EqDecision A} (s : list (option A)) : pd.nunique s ≤ length s.
Proof.
  unfold pd.nunique. pose proof (length_unique_le (pd.dropna s)).
  pose proof (length_dropna_le s). lia.
Qed.

(** X6. The order count never exceeds the number of rows of the view.  It
    is 0 exactly when the view has an OrderID column whose cells are all
    missing, or no OrderID column and no rows; in that case the average
    order value shown is 0, whatever the sales are. *)
Theorem total_orders_bounds (df_filtered : DataFrame) :
  total_orders df_filtered ≤ length (rows df_filtered)
  ∧ (total_orders df_filtered = 0
     ↔ if has_column "OrderID" df_filtered
       then ∀ r, In r (rows df_filtered) → OrderID r = None
       else rows df_filtered = [])
  ∧ (total_orders df_filtered = 0 → avg_order_value df_filtered = Ok 0%Qc).
Proof.
  split; [|split].
  - unfold total_orders. destruct (has_column "OrderID" df_filtered); [|lia].
    rewrite <- (length_map OrderID). apply nunique_le.
  - unfold total_orders. destruct (has_column "OrderID" df_filtered).
    + rewrite <- (options_nil OrderID). unfold pd.nunique, options_of.
      destruct (pd.unique _); simpl; split; congruence.
    + destruct (rows df_filtered); simpl; split; congruence.
  - intros E. unfold avg_order_value. rewrite E. reflexivity.
Qed.

(** ** Group keys *)

Lemma NoDup_unique {A} `{EqDecision A} (l : list A) : List.NoDup (pd.unique l).
Proof.
  induction l as [|x l IH]; simpl; constructor.
  - rewrite filter_In, negb_true_iff, bool_decide_eq_false. tauto.
  - apply List.NoDup_filter, IH.
Qed.

Lemma groupby_keys (key : Row → option string) (val : Row → option Qc) (rs : list Row) :
  map fst (series.groupby_sum key val rs) = series.sort String.leb (options_of key rs).
Proof.
  unfold series.groupby_sum, options_of. rewrite map_map. simpl. apply map_id.
Qed.

(** ** Sorted lists without repeats *)

Lemma StronglySorted_NoDup_strict {A} (R : A → A → Prop) (l : list A) :
  StronglySorted R l → List.NoDup l → StronglySorted (λ a b, R a b ∧ a ≠ b) l.
Proof.
  induction 1 as [|x l Hl IH Hx]; intros Hnd; constructor.
  - apply IH. inversion Hnd; assumption.
  - inversion Hnd as [|? ? Hnotin _]; subst.
    rewrite Forall_forall in *. intros y Hy. split; [auto|].
    intros ->. exact (Hnotin Hy).
Qed.

Lemma StronglySorted_weaken {A} (R S : A → A → Prop) (l : list A) :
  (∀ a b, R a b → S a b) → StronglySorted R l → StronglySorted S l.
Proof.
  intros HRS. induction 1 as [|x l Hl IH Hx]; constructor; [exact IH|].
  eapply Forall_impl; [|exact Hx]. intros y. apply HRS.
Qed.

(** ** The top label *)

Lemma argmax_from_first_largest best s :
  ∃ pre post, best :: s = pre ++ series.argmax_from best s :: post
              ∧ Forall (λ p, (snd p < snd (series.argmax_from best s))%Qc) pre
              ∧ Forall (λ p, (snd p ≤ snd (series.argmax_from best s))%Qc) post.
Proof.
  revert best. induction s as [|x t IH]; intros best; simpl.
  - exists [], []. repeat split; constructor.
  - destruct (bool_decide (snd best < snd x)%Qc) eqn:E.
    + apply bool_decide_eq_true in E.
      destruct (IH x) as (pre & post & Eq & Hpre & Hpost).
      set (m := series.argmax_from x t) in *. clearbody m.
      exists (best :: pre), post.
      split; [simpl; f_equal; exact Eq|].
      split; [|exact Hpost]. constructor; [|exact Hpre].
      destruct pre as [|y pre]; simpl in Eq.
      * injection Eq as Ex _. rewrite <- Ex. exact E.
      * injection Eq as Ey _. subst y. inversion Hpre; subst.
        eapply Qclt_trans; eassumption.
    + apply bool_decide_eq_false in E. apply Qcnot_lt_le in E.
      destruct (IH best) as (pre & post & Eq & Hpre & Hpost).
      set (m := series.argmax_from best t) in *. clearbody m.
      destruct pre as [|y pre]; simpl in Eq.
      * injection Eq as Eb Et. exists [], (x :: post).
        split; [simpl; rewrite <- Eb, <- Et; reflexivity|].
        split; [constructor|]. constructor; [rewrite <- Eb; exact E|exact Hpost].
      * injection Eq as Ey Et. subst y. exists (best :: x :: pre), post.
        split; [simpl; f_equal; f_equal; exact Et|].
        split; [|exact Hpost].
        inversion Hpre; subst.
        constructor; [assumption|]. constructor; [|assumption].
        eapply Qcle_lt_trans; eassumption.
Qed.

(** X10. When the region insight is emitted, the region chart is drawn from
    the same group sums, the named region is one of its bars, no bar is
    larger, and every bar before it is strictly smaller (of equal sums the
    first in key order is named); likewise the category insight names the
    first largest slice of the category pie. *)
Theorem top_label_is_first_largest_group (df_filtered : DataFrame) :
  (∀ top_region sales,
      region_insight df_filtered = Ok [Top_region top_region sales] →
      sales_by_region_section df_filtered
      = [px_bar "Sales by Region" (region_sales df_filtered)]
      ∧ ∃ pre post,
          region_sales df_filtered = pre ++ (top_region, sales) :: post
          ∧ Forall (λ p, (snd p < sales)%Qc) pre
          ∧ Forall (λ p, (snd p ≤ sales)%Qc) post)
  ∧ (∀ top_cat,
        category_insight df_filtered = Ok [Top_category top_cat] →
        sales_by_category_section df_filtered
        = [px_pie "Sales Distribution by Category" (cat_sales df_filtered)]
        ∧ ∃ sales pre post,
            cat_sales df_filtered = pre ++ (top_cat, sales) :: post
            ∧ Forall (λ p, (snd p < sales)%Qc) pre
            ∧ Forall (λ p, (snd p ≤ sales)%Qc) post).
Proof.
  split.
  - intros n x. unfold region_insight, sales_by_region_section.
    destruct (has_column "Region" df_filtered && has_column "Sales" df_filtered);
      [|discriminate].
    destruct (region_sales df_filtered) as [|b s]; [discriminate|]. simpl.
    intros [= <- <-]. split; [reflexivity|].
    destruct (argmax_from_first_largest b s) as (pre & post & E & H1 & H2).
    exists pre, post. rewrite E. destruct (series.argmax_from b s). auto.
  - intros n. unfold category_insight, sales_by_category_section.
    destruct (has_column "Category" df_filtered && has_column "Sales" df_filtered);
      [|discriminate].
    destruct (cat_sales df_filtered) as [|b s]; [discriminate|]. simpl.
    intros [= <-].
    split; [reflexivity|].
    destruct (argmax_from_first_largest b s) as (pre & post & E & H1 & H2).
    exists (snd (series.argmax_from b s)), pre, post.
    rewrite E. destruct (series.argmax_from b s). auto.
Qed.

Lemma top_label_is_first_largest_group_witness :
  ∃ pre post,
    region_sales orders = pre ++ ("West", dollars 170) :: post
    ∧ Forall (λ p, (snd p < dollars 170)%Qc) pre
    ∧ Forall (λ p, (snd p ≤ dollars 170)%Qc) post.
Proof.
  destruct (top_label_is_first_largest_group orders) as [H _].
  apply (H "West" (dollars 170)). reflexivity.
Defined.

(** ** Monthly buckets and daily points *)

Lemma fold_min_spec ms m :
  In (fold_left Z.min ms m) (m :: ms)
  ∧ ∀ x, In x (m :: ms) → (fold_left Z.min ms m ≤ x)%Z.
Proof.
  revert m. induction ms as [|a ms IH]; intros m; simpl.
  - split; [auto|]. intros x [<-|[]]. lia.
  - destruct (IH (Z.min m a)) as [Hin Hle]. split.
    + destruct Hin as [E|Hin]; [|auto]. rewrite <- E.
      destruct (Z.min_spec m a) as [[_ ->]|[_ ->]]; auto.
    + intros x [<-|[<-|Hx]].
      * specialize (Hle (Z.min m a) (or_introl eq_refl)). lia.
      * specialize (Hle (Z.min m a) (or_introl eq_refl)). lia.
      * apply Hle. right. exact Hx.
Qed.

Lemma fold_max_spec ms m :
  In (fold_left Z.max ms m) (m :: ms)
  ∧ ∀ x, In x (m :: ms) → (x ≤ fold_left Z.max ms m)%Z.
Proof.
  revert m. induction ms as [|a ms IH]; intros m; simpl.
  - split; [auto|]. intros x [<-|[]]. lia.
  - destruct (IH (Z.max m a)) as [Hin Hle]. split.
    + destruct Hin as [E|Hin]; [|auto]. rewrite <- E.
      destruct (Z.max_spec m a) as [[_ ->]|[_ ->]]; auto.
    + intros x [<-|[<-|Hx]].
      * specialize (Hle (Z.max m a) (or_introl eq_refl)). lia.
      * specialize (Hle (Z.max m a) (or_introl eq_refl)). lia.
      * apply Hle. right. exact Hx.
Qed.

Lemma In_unique_gen {A} `{EqDecision A} (x : A) (l : list A) :
  In x l → In x (pd.unique l).
Proof.
  induction l as [|a l IH]; simpl; [tauto|].
  destruct (decide (x = a)) as [->|Hne]; [auto|].
  intros [->|H]; [congruence|]. right.
  apply filter_In. split; [auto|].
  apply negb_true_iff, bool_decide_eq_false. exact Hne.
Qed.

Lemma date_leb_total a b : date_leb a b = true ∨ date_leb b a = true.
Proof. rewrite !date_leb_spec. lia. Qed.

Lemma date_leb_trans a b c :
  date_leb a b = true → date_leb b c = true → date_leb a c = true.
Proof. rewrite !date_leb_spec. lia. Qed.

Lemma df_time_nil v : df_time v = [] ↔ ∀ r, In r (rows v) → OrderDate r = None.
Proof.
  unfold df_time. induction (rows v) as [|r rs IH]; simpl.
  - split; [intros _ r []|reflexivity].
  - destruct (OrderDate r) eqn:E; simpl.
    + split; [discriminate|]. intros H. specialize (H r (or_introl eq_refl)). congruence.
    + rewrite IH. split; [intros H x [<-|Hx]; auto|auto].
Qed.

(** X12. The daily chart has one point per calendar day on which the view
    has a dated row, the days strictly ascending; the section draws it
    exactly when some row has a date and warns otherwise, provided the view
    has the OrderDate and Sales columns. *)
Theorem daily_chart_points (df_filtered : DataFrame) :
  StronglySorted (λ a b, date_leb a b = true ∧ a ≠ b) (map fst (daily_sales df_filtered))
  ∧ (∀ d, In d (map fst (daily_sales df_filtered))
          ↔ ∃ r t, In r (rows df_filtered) ∧ OrderDate r = Some t ∧ ts_date t = d)
  ∧ (has_column "OrderDate" df_filtered = true →
     has_column "Sales" df_filtered = true →
     sales_over_time_section df_filtered
     = if existsb (λ r, pd.notna (OrderDate r)) (rows df_filtered)
       then [px_line "Daily Sales Trend" (daily_sales df_filtered)]
       else [chart_warning "No valid data to plot sales over time."]).
Proof.
  assert (Ekeys : map fst (daily_sales df_filtered)
                  = series.sort date_leb
                      (pd.unique (map (λ p, ts_date (fst p)) (df_time df_filtered)))).
  { unfold daily_sales. rewrite map_map. simpl. apply map_id. }
  split; [|split].
  - rewrite Ekeys. apply StronglySorted_NoDup_strict.
    + apply sort_StronglySorted; [apply date_leb_total|apply date_leb_trans].
    + eapply Permutation_NoDup; [symmetry; apply sort_Permutation|apply NoDup_unique].
  - intros d. rewrite Ekeys. split.
    + intros H. apply (Permutation_in _ (sort_Permutation _ _)) in H.
      assert (H' : In d (map (λ p, ts_date (fst p)) (df_time df_filtered))).
      { revert H. generalize (map (λ p, ts_date (fst p)) (df_time df_filtered)).
        intros l. induction l as [|a l IH]; simpl; [tauto|].
        intros [->|H]; [auto|]. apply filter_In in H. right. apply IH, H. }
      apply in_map_iff in H'. destruct H' as ([t x] & <- & Hin).
      unfold df_time in Hin. apply list_elem_of_In, list_elem_of_omap in Hin.
      destruct Hin as (r & Hr & Hrt). apply list_elem_of_In in Hr.
      destruct (OrderDate r) as [t'|] eqn:Et; simpl in Hrt; [|discriminate].
      injection Hrt as <- _. eauto.
    + intros (r & t & Hr & Ht & <-).
      eapply Permutation_in; [symmetry; apply sort_Permutation|].
      apply In_unique_gen, in_map_iff. exists (t, Sales r). split; [reflexivity|].
      unfold df_time. apply list_elem_of_In, list_elem_of_omap.
      exists r. split; [apply list_elem_of_In, Hr|]. rewrite Ht. reflexivity.
  - intros Hd Hs. unfold sales_over_time_section. rewrite Hd, Hs. simpl.
    destruct (existsb (λ r, pd.notna (OrderDate r)) (rows df_filtered)) eqn:Hex.
    + destruct (df_time df_filtered) eqn:E; [|reflexivity].
      apply existsb_notna_true in Hex. destruct Hex as (r & Hr & Hk).
      destruct (Hk (proj1 (df_time_nil df_filtered) E r Hr)).
    + rewrite (proj2 (df_time_nil df_filtered) (existsb_notna_false OrderDate _ Hex)).
      reflexivity.
Qed.

Lemma daily_chart_points_witness :
  sales_over_time_section orders = [px_line "Daily Sales Trend" (daily_sales orders)].
Proof. apply (daily_chart_points orders); reflexivity. Defined.

Lemma length_resample_M_sum s m ms :
  map (λ p, series.month_of (fst p)) s = m :: ms →
  length (series.resample_M_sum s)
  = Z.to_nat (fold_left Z.max ms m - fold_left Z.min ms m + 1).
Proof.
  intros E. unfold series.resample_M_sum. rewrite E.
  rewrite length_map, length_seqZ. reflexivity.
Qed.

(** X13. On a view with OrderDate and Sales columns a trend insight is
    emitted exactly when two dated rows fall in different calendar months;
    dated rows that all lie in one month give no trend. *)
Theorem trend_needs_two_months (df_filtered : DataFrame) :
  has_column "OrderDate" df_filtered = true →
  has_column "Sales" df_filtered = true →
  (trend_insight df_filtered = Ok [Sales_increasing]
   ∨ trend_insight df_filtered = Ok [Sales_declining])
  ↔ ∃ p q, In p (df_time df_filtered) ∧ In q (df_time df_filtered)
           ∧ series.month_of (fst p) ≠ series.month_of (fst q).
Proof.
  intros Hd Hs.
  assert (Hlen : 2 ≤ length (sales_over_time df_filtered)
                 ↔ ∃ p q, In p (df_time df_filtered) ∧ In q (df_time df_filtered)
                          ∧ series.month_of (fst p) ≠ series.month_of (fst q)).
  { unfold sales_over_time. fold (df_time df_filtered).
    destruct (map (λ p, series.month_of (fst p)) (df_time df_filtered)) as [|m ms] eqn:E.
    - destruct (df_time df_filtered); [|discriminate]. simpl.
      split; [lia|intros (p & _ & [] & _)].
    - rewrite (length_resample_M_sum _ _ _ E).
      destruct (fold_min_spec ms m) as [Hmin_in Hmin].
      destruct (fold_max_spec ms m) as [Hmax_in Hmax].
      rewrite <- E in Hmin_in, Hmax_in, Hmin, Hmax.
      split.
      + intros H. apply in_map_iff in Hmin_in, Hmax_in.
        destruct Hmin_in as (p & Ep & Hp). destruct Hmax_in as (q & Eq & Hq).
        exists p, q. split; [exact Hp|]. split; [exact Hq|]. lia.
      + intros (p & q & Hp & Hq & Hne).
        pose proof (Hmin _ (in_map (λ p, series.month_of (fst p)) _ _ Hp)).
        pose proof (Hmin _ (in_map (λ p, series.month_of (fst p)) _ _ Hq)).
        pose proof (Hmax _ (in_map (λ p, series.month_of (fst p)) _ _ Hp)).
        pose proof (Hmax _ (in_map (λ p, series.month_of (fst p)) _ _ Hq)).
        lia. }
  rewrite <- Hlen. unfold trend_insight. rewrite Hd, Hs. simpl. split.
  - intros H. destruct (le_lt_dec 2 (length (sales_over_time df_filtered))) as [|Hlt];
      [assumption|].
    rewrite (trend_short _ Hlt) in H. destruct H; discriminate.
  - intros H. destruct (last_two _ H) as (pre & a & b & ->).
    rewrite trend_last_two. destruct (bool_decide (a < b)%Qc); auto.
Qed.

Lemma trend_needs_two_months_witness :
  (trend_insight flat_months = Ok [Sales_increasing]
   ∨ trend_insight flat_months = Ok [Sales_declining])
  ↔ ∃ p q, In p (df_time flat_months) ∧ In q (df_time flat_months)
           ∧ series.month_of (fst p) ≠ series.month_of (fst q).
Proof. apply trend_needs_two_months; reflexivity. Defined.

(** ** Top products in general *)

Lemma StronglySorted_app {A} (R : A → A → Prop) (l1 l2 : list A) :
  StronglySorted R (l1 ++ l2) →
  StronglySorted R l1 ∧ ∀ a b, In a l1 → In b l2 → R a b.
Proof.
  induction l1 as [|x l1 IH]; simpl; intros H.
  - split; [constructor|intros a b []].
  - apply StronglySorted_inv in H. destruct H as [H Hx].
    destruct (IH H) as [H1 H2]. split.
    + constructor; [exact H1|]. apply Forall_app in Hx. tauto.
    + intros a b [<-|Ha] Hb; [|auto].
      rewrite Forall_forall in Hx. apply Hx, in_or_app. auto.
Qed.

(** X14. Whatever the sales are (ties included), the top-products series
    holds min(10, number of distinct products) entries, sorted by sum from
    largest to smallest; together with the entries left out it is the whole
    grouping, and no entry left out has a larger sum than an entry kept. *)
Theorem top_products_are_the_largest (df_filtered : DataFrame) :
  length (top_products df_filtered)
  = Nat.min 10 (length (options_of Product (rows df_filtered)))
  ∧ StronglySorted (λ a b, (snd b ≤ snd a)%Qc) (top_products df_filtered)
  ∧ ∃ rest,
      Permutation (top_products df_filtered ++ rest)
        (series.groupby_sum Product Sales (rows df_filtered))
      ∧ ∀ a b, In a (top_products df_filtered) → In b rest → (snd b ≤ snd a)%Qc.
Proof.
  unfold top_products, series.head.
  set (g := series.groupby_sum Product Sales (rows df_filtered)).
  assert (Hs : StronglySorted (λ a b : string * Qc, (snd b ≤ snd a)%Qc)
                 (series.sort_values_desc g)).
  { eapply StronglySorted_weaken;
      [|apply (sort_StronglySorted (λ a b : string * Qc, bool_decide (snd b ≤ snd a)%Qc))].
    - intros a b H. apply bool_decide_eq_true in H. exact H.
    - intros a b. rewrite !bool_decide_eq_true.
      destruct (Qclt_le_dec (snd a) (snd b)) as [H|H]; [right|left; exact H].
      apply Qclt_le_weak, H.
    - intros a b c. rewrite !bool_decide_eq_true. intros H1 H2.
      eapply Qcle_trans; eassumption. }
  assert (Hp : Permutation (series.sort_values_desc g) g) by apply sort_Permutation.
  rewrite <- (take_drop 10 (series.sort_values_desc g)) in Hs, Hp.
  destruct (StronglySorted_app _ _ _ Hs) as [H1 H2].
  split; [|split; [exact H1|]].
  - rewrite length_take. f_equal.
    rewrite <- (take_drop 10 (series.sort_values_desc g)).
    rewrite (Permutation_length Hp). unfold g.
    rewrite <- (length_map fst), groupby_keys.
    apply Permutation_length, sort_Permutation.
  - exists (drop 10 (series.sort_values_desc g)). split; [exact Hp|exact H2].
Qed.

(** ** The text report *)

Lemma append_assoc (a b c : string) : (a +:+ b) +:+ c = a +:+ (b +:+ c).
Proof.
  induction a as [|ch a IH]; [reflexivity|].
  change (String ch ((a +:+ b) +:+ c) = String ch (a +:+ (b +:+ c))).
  f_equal. exact IH.
Qed.

Lemma concat_snoc sep (l : list string) x :
  l ≠ [] → String.concat sep (l ++ [x]) = String.concat sep l +:+ sep +:+ x.
Proof.
  induction l as [|a l IH]; [congruence|]. intros _.
  destruct l as [|b l].
  - reflexivity.
  - change (String.concat sep ((a :: b :: l) ++ [x]))
      with (a +:+ sep +:+ String.concat sep ((b :: l) ++ [x])).
    rewrite IH by discriminate.
    change (String.concat sep (a :: b :: l)) with (a +:+ sep +:+ String.concat sep (b :: l)).
    rewrite !append_assoc. reflexivity.
Qed.

Lemma length_report_insights f ins :
  length (report_insights f ins) = Nat.max 1 (length ins).
Proof.
  unfold report_insights. destruct ins as [|i ins]; [reflexivity|].
  rewrite length_imap. simpl. lia.
Qed.

(** X15. The text report has twelve fixed lines, then the insight block,
    then the footer.  The k-th insight is line 12 + k (counting from 0),
    carrying the number k + 1, which is also the number it has on the page;
    with no insight the block is the single line "No insights available."
    while the page shows its own notice; the joined text ends with an empty
    line followed by the footer. *)
Theorem report_layout (f : Formats) (sales : Qc) (orders : nat) (avg profit : Qc)
    (ins : list Insight) :
  length (report f sales orders avg profit ins) = 13 + Nat.max 1 (length ins)
  ∧ (∀ k i, ins !! k = Some i →
       report f sales orders avg profit ins !! (12 + k)
       = Some (pretty.pretty (k + 1) +:+ ". " +:+ insight_text f i)
       ∧ show_insights ins !! k = Some (st_markdown (k + 1) i))
  ∧ (ins = [] →
     report f sales orders avg profit ins !! 12 = Some "No insights available."
     ∧ show_insights ins = [st_info "No insights generated based on current filters."])
  ∧ ∃ body, report f sales orders avg profit ins
            = body ++ [nl +:+ "----- END OF REPORT -----"]
            ∧ txt_data (report f sales orders avg profit ins)
              = txt_data body +:+ nl +:+ nl +:+ "----- END OF REPORT -----".
Proof.
  split; [|split; [|split]].
  - unfold report. simpl. rewrite length_app, length_report_insights. simpl. lia.
  - intros k i Hk. unfold report, report_insights, show_insights.
    destruct ins as [|i0 ins]; [discriminate|].
    split.
    + change (12 + k) with (length (A:=string)
        [ "=================================="; "    RETAIL ANALYTICS REPORT";
          "=================================="; "Generated on: " +:+ now f; "";
          "----- KEY METRICS -----"; "Total Sales      : $" +:+ money f sales;
          "Total Orders     : " +:+ thousands f orders;
          "Avg Order Value  : $" +:+ money f avg;
          "Total Profit     : $" +:+ money f profit; ""; "----- INSIGHTS -----" ] + k).
      rewrite lookup_app_r by lia.
      rewrite Nat.add_comm, Nat.add_sub.
      rewrite lookup_app_l by (rewrite length_imap; apply lookup_lt_Some in Hk; exact Hk).
      rewrite list_lookup_imap, Hk. reflexivity.
    + rewrite list_lookup_imap, Hk. simpl. rewrite Nat.add_1_r. reflexivity.
  - intros ->. split; reflexivity.
  - eexists. unfold report. rewrite app_assoc. split; [reflexivity|].
    unfold txt_data. rewrite concat_snoc by discriminate. reflexivity.
Qed.

(** ** Edge cases of the date stage *)

Lemma filter_none {A} (p : A → bool) (l : list A) :
  (∀ x, In x l → p x = false) → List.filter p l = [].
Proof.
  induction l as [|x l IH]; simpl; intros H; [reflexivity|].
  rewrite (H x) by auto. apply IH. auto.
Qed.

(** X17. When the date widget is drawn: a returned tuple that does not have
    two dates leaves the view as it was, and a tuple whose first date is
    after its second leaves no row at all. *)
Theorem date_stage_edge_cases (ui : Sidebar) (s : State) (df : DataFrame) :
  value_of "df" s = Some df →
  value_of "df_filtered" s = Some df →
  has_column "OrderDate" df = true →
  (∃ r, In r (rows df) ∧ OrderDate r ≠ None) →
  (length (date_range ui df) ≠ 2 → df_filtered_after (date_filter ui) s = Ok df)
  ∧ (∀ a b, date_range ui df = [a; b] → date_leb a b = false →
            df_filtered_after (date_filter ui) s = Ok (mkDataFrame (columns df) [])).
Proof.
  intros Hdf Hv Hc Hparsed.
  pose proof (existsb_notna OrderDate _ Hparsed) as Hany.
  rewrite (df_filtered_after_date_filter _ _ _ Hdf Hv). split.
  - intros Hlen. f_equal. apply restrict_all. intros r _.
    unfold date_predicate. rewrite Hc, Hany. simpl.
    destruct (date_range ui df) as [|a [|b [|c l]]]; try reflexivity.
    simpl in Hlen. congruence.
  - intros a b E Hab. f_equal. unfold restrict. f_equal.
    apply filter_none. intros r _.
    unfold date_predicate. rewrite Hc, Hany, E. simpl.
    destruct (OrderDate r) as [t|]; simpl; [|reflexivity].
    destruct (date_leb a (ts_date t)) eqn:E1; [|reflexivity].
    destruct (date_leb (ts_date t) b) eqn:E2; [|reflexivity].
    rewrite (date_leb_trans _ _ _ E1 E2) in Hab. discriminate.
Qed.

Lemma date_stage_edge_cases_witness :
  df_filtered_after (date_filter (picks [mkdate 2023 1 5] [] [])) orders_copied = Ok orders
  ∧ df_filtered_after
      (date_filter (picks [mkdate 2023 3 1; mkdate 2023 1 1] [] [])) orders_copied
    = Ok (mkDataFrame (columns orders) []).
Proof.
  assert (Hparsed : ∃ r, In r (rows orders) ∧ OrderDate r ≠ None)
    by (eexists; split; [left; reflexivity|discriminate]).
  split.
  - destruct (date_stage_edge_cases (picks [mkdate 2023 1 5] [] []) orders_copied orders
                eq_refl eq_refl eq_refl Hparsed) as [H _].
    apply H. vm_compute. lia.
  - destruct (date_stage_edge_cases (picks [mkdate 2023 3 1; mkdate 2023 1 1] [] [])
                orders_copied orders eq_refl eq_refl eq_refl Hparsed) as [_ H].
    apply (H (mkdate 2023 3 1) (mkdate 2023 1 1)); reflexivity.
Defined.
